(** * HapticArtFHE: the decryption-oracle protocol of the haptic-art contract

    A shallow embedding of the Solidity contract [HapticArtFHE] (the contract
    text that follows the front-end component in [App.tsx]) and proofs of the
    properties its specification states about it.

    Solidity storage is modelled by explicit state passing in a small
    state-and-revert monad.  A [mapping] is a finite map read with the
    Solidity default (the all-zero value) at absent keys; [uint256], [address],
    [bytes32] and the [euint32] ciphertext handles are integers. *)

From Stdlib Require Import ZArith.
From stdpp Require Import gmap strings list fin_maps.

Open Scope Z_scope.

(** ** Data model *)

Definition uint256_max : Z := 2 ^ 256 - 1.
Arguments uint256_max : simpl never.

(** [struct EncryptedSample]; an [euint32] is the [bytes32] handle of a
    ciphertext. *)
Record EncryptedSample := mkEncryptedSample {
  id : Z;
  encryptedIntensity : Z;
  encryptedFrequency : Z;
  encryptedContactType : Z;
  timestamp : Z;
  submitter : Z
}.

(** [struct Transformation] *)
Record Transformation := mkTransformation {
  shapeDescriptor : string;
  textureDescriptor : string;
  revealed : bool
}.

(** The four [event]s of the contract. *)
Inductive Event :=
| SampleSubmitted (sample_id sample_submitter sample_timestamp : Z)
| TransformationRequested (sampleId requestId : Z)
| TransformationRevealed (sampleId : Z)
| MetricDecrypted (pseudoId value : Z).

(** Contract storage, followed by the log of emitted events. *)
Record State := mkState {
  sampleCount : Z;
  encryptedSamples : gmap Z EncryptedSample;
  transformations : gmap Z Transformation;
  requestToSampleId : gmap Z Z;
  encryptedMetric : gmap string Z;
  metricKeys : list string;
  events : list Event
}.

(** Storage right after deployment: every slot is zero. *)
Definition init : State :=
  mkState 0 ∅ ∅ ∅ ∅ [] [].

(** Default values of the three value types held in mappings. *)
Definition zeroSample : EncryptedSample := mkEncryptedSample 0 0 0 0 0 0.
Definition zeroTransformation : Transformation := mkTransformation "" "" false.

(** Reads of [encryptedSamples[k]], [transformations[k]],
    [requestToSampleId[k]] and [encryptedMetric[key]]. *)
Definition sample_at (st : State) (k : Z) : EncryptedSample :=
  default zeroSample (encryptedSamples st !! k).
Definition transformation_at (st : State) (k : Z) : Transformation :=
  default zeroTransformation (transformations st !! k).
Definition request_at (st : State) (k : Z) : Z :=
  default 0 (requestToSampleId st !! k).
Definition metric_at (st : State) (key : string) : Z :=
  default 0 (encryptedMetric st !! key).

(** Storage writes, one per assigned slot. *)
Definition set_sampleCount (n : Z) (st : State) : State :=
  mkState n (encryptedSamples st) (transformations st) (requestToSampleId st)
          (encryptedMetric st) (metricKeys st) (events st).
Definition set_sample (k : Z) (s : EncryptedSample) (st : State) : State :=
  mkState (sampleCount st) (<[k := s]> (encryptedSamples st)) (transformations st)
          (requestToSampleId st) (encryptedMetric st) (metricKeys st) (events st).
Definition set_transformation (k : Z) (t : Transformation) (st : State) : State :=
  mkState (sampleCount st) (encryptedSamples st) (<[k := t]> (transformations st))
          (requestToSampleId st) (encryptedMetric st) (metricKeys st) (events st).
Definition set_request (k v : Z) (st : State) : State :=
  mkState (sampleCount st) (encryptedSamples st) (transformations st)
          (<[k := v]> (requestToSampleId st)) (encryptedMetric st) (metricKeys st)
          (events st).
Definition set_metric (key : string) (v : Z) (st : State) : State :=
  mkState (sampleCount st) (encryptedSamples st) (transformations st)
          (requestToSampleId st) (<[key := v]> (encryptedMetric st)) (metricKeys st)
          (events st).
Definition push_metricKey (key : string) (st : State) : State :=
  mkState (sampleCount st) (encryptedSamples st) (transformations st)
          (requestToSampleId st) (encryptedMetric st) (metricKeys st ++ [key])
          (events st).
Definition log_event (e : Event) (st : State) : State :=
  mkState (sampleCount st) (encryptedSamples st) (transformations st)
          (requestToSampleId st) (encryptedMetric st) (metricKeys st)
          (events st ++ [e]).

(** Field assignments through a [storage] reference to a Transformation. *)
Definition with_shapeDescriptor (s : string) (t : Transformation) : Transformation :=
  mkTransformation s (textureDescriptor t) (revealed t).
Definition with_textureDescriptor (s : string) (t : Transformation) : Transformation :=
  mkTransformation (shapeDescriptor t) s (revealed t).
Definition with_revealed (b : bool) (t : Transformation) : Transformation :=
  mkTransformation (shapeDescriptor t) (textureDescriptor t) b.

(** ** The revert monad *)

(** Why a call reverted: a failed [require] with its message, a Solidity
    panic (0x11 is checked-arithmetic overflow), a revert raised inside
    [FHE.checkSignatures], or one raised by [abi.decode]. *)
Inductive revert_reason :=
| Error (msg : string)
| Panic (code : Z)
| InvalidSignatures
| DecodeFailure.

Inductive result (A : Type) :=
| Ok (a : A)
| Revert (r : revert_reason).
Arguments Ok {A} a.
Arguments Revert {A} r.

Definition M (A : Type) : Type := State → result (A * State).

#[export] Instance M_ret : MRet M := λ A a st, Ok (a, st).
#[export] Instance M_bind : MBind M := λ A B f m st,
  match m st with
  | Ok (a, st') => f a st'
  | Revert r => Revert r
  end.

Definition get : M State := λ st, Ok (st, st).
Definition modify (f : State → State) : M unit := λ st, Ok (tt, f st).
Definition revert {A} (r : revert_reason) : M A := λ _, Revert r.
Definition require (b : bool) (msg : string) : M unit :=
  if b then mret tt else revert (Error msg).
Definition emit (e : Event) : M unit := modify (log_event e).

(** [a + b] on [uint256] under Solidity 0.8 checked arithmetic. *)
Definition checked_add (a b : Z) : M Z :=
  if decide (a + b ≤ uint256_max) then mret (a + b) else revert (Panic 17).

(** What the surrounding transaction supplies to a call: [msg.sender],
    [block.timestamp], and the request id that [FHE.requestDecryption]
    returns when the call issues a request. *)
Record Env := mkEnv {
  msg_sender : Z;
  block_timestamp : Z;
  oracle_requestId : Z
}.

(** The library and built-in functions the contract calls; their code is not
    part of the contract.  [FHE_checkSignatures] is [false] when the library
    call reverts, the decoders are [None] when [abi.decode] reverts, and
    [keccak256_packed key] is [uint256(keccak256(abi.encodePacked(key)))]. *)
Class Externals := {
  FHE_add : Z → Z → Z;
  FHE_isInitialized : Z → bool;
  FHE_checkSignatures : Z → list Byte.byte → list Byte.byte → bool;
  abi_decode_strings : list Byte.byte → option (list string);
  abi_decode_uint32 : list Byte.byte → option Z;
  keccak256_packed : string → Z
}.

(** ** The contract *)

Section Contract.
Context `{Ext : Externals}.

(** [modifier onlySubmitter(sampleId) { _; }] *)
Definition onlySubmitter {A} (env : Env) (sampleId : Z) (body : M A) : M A :=
  body.

Definition submitEncryptedSample (env : Env)
    (encryptedIntensity' encryptedFrequency' encryptedContactType' : Z) : M unit :=
  st ← get;
  n ← checked_add (sampleCount st) 1;
  modify (set_sampleCount n);;
  let newId := n in
  modify (set_sample newId
    {| id := newId;
       encryptedIntensity := encryptedIntensity';
       encryptedFrequency := encryptedFrequency';
       encryptedContactType := encryptedContactType';
       timestamp := block_timestamp env;
       submitter := msg_sender env |});;
  modify (set_transformation newId
    {| shapeDescriptor := ""; textureDescriptor := ""; revealed := false |});;
  emit (SampleSubmitted newId (msg_sender env) (block_timestamp env)).

Definition requestTransformation (env : Env) (sampleId : Z) : M unit :=
  onlySubmitter env sampleId (
    st ← get;
    let s := sample_at st sampleId in
    require (negb (id s =? 0)) "Invalid sample";;
    require (negb (revealed (transformation_at st sampleId))) "Already revealed";;
    let ciphertexts :=
      [encryptedIntensity s; encryptedFrequency s; encryptedContactType s] in
    let reqId := oracle_requestId env in
    modify (set_request reqId sampleId);;
    emit (TransformationRequested sampleId reqId)).

Definition handleDecryption (requestId : Z) (cleartexts proof : list Byte.byte)
    : M unit :=
  st ← get;
  let sampleId := request_at st requestId in
  require (negb (sampleId =? 0)) "Unknown request";;
  let t := transformation_at st sampleId in
  require (negb (revealed t)) "Already processed";;
  (if FHE_checkSignatures requestId cleartexts proof
   then mret tt else revert InvalidSignatures);;
  results ← (match abi_decode_strings cleartexts with
             | Some r => mret r
             | None => revert DecodeFailure
             end);
  let t := with_shapeDescriptor
             (if (0 <? length results)%nat then default "" (results !! 0%nat) else "") t in
  let t := with_textureDescriptor
             (if (1 <? length results)%nat then default "" (results !! 1%nat) else "") t in
  let t := with_revealed true t in
  modify (set_transformation sampleId t);;
  emit (TransformationRevealed sampleId).

Definition getTransformation (sampleId : Z) : M (string * string * bool) :=
  st ← get;
  let t := transformation_at st sampleId in
  mret (shapeDescriptor t, textureDescriptor t, revealed t).

Definition storeEncryptedMetric (key : string) (value : Z) : M unit :=
  st ← get;
  if negb (FHE_isInitialized (metric_at st key))
  then modify (set_metric key value);;
       modify (push_metricKey key)
  else modify (set_metric key (FHE_add (metric_at st key) value)).

Definition requestMetricDecryption (env : Env) (key : string) : M unit :=
  st ← get;
  let val := metric_at st key in
  require (FHE_isInitialized val) "Metric not found";;
  let ciphertexts := [val] in
  let reqId := oracle_requestId env in
  modify (set_request reqId (keccak256_packed key)).

Definition handleMetricDecryption (requestId : Z) (cleartexts proof : list Byte.byte)
    : M unit :=
  st ← get;
  let pseudoId := request_at st requestId in
  require (negb (pseudoId =? 0)) "Unknown request";;
  (if FHE_checkSignatures requestId cleartexts proof
   then mret tt else revert InvalidSignatures);;
  decryptedValue ← (match abi_decode_uint32 cleartexts with
                    | Some v => mret v
                    | None => revert DecodeFailure
                    end);
  emit (MetricDecrypted pseudoId decryptedValue).

Definition getSampleSubmitter (sampleId : Z) : M Z :=
  st ← get;
  let s := sample_at st sampleId in
  mret (submitter s).

Definition resetTransformationReveal (sampleId : Z) : M unit :=
  st ← get;
  modify (set_transformation sampleId
            (with_revealed false (transformation_at st sampleId))).

Definition listMetricKeys : M (list string) :=
  st ← get;
  mret (metricKeys st).

Definition getEncryptedSampleInfo (sampleId : Z) : M (Z * Z * Z * bool) :=
  st ← get;
  let s := sample_at st sampleId in
  let t := transformation_at st sampleId in
  mret (id s, timestamp s, submitter s, revealed t).

(** ** Transactions *)

(** A call to one of the state-changing public functions.  The [view]
    functions, [receive] and [fallback] write no storage and emit nothing,
    so they do not occur in traces.  [FHE.requestDecryption] and [FHE.add]
    are taken to return. *)
Inductive Call :=
| CallSubmitEncryptedSample (encryptedIntensity' encryptedFrequency' encryptedContactType' : Z)
| CallRequestTransformation (sampleId : Z)
| CallHandleDecryption (requestId : Z) (cleartexts proof : list Byte.byte)
| CallStoreEncryptedMetric (key : string) (value : Z)
| CallRequestMetricDecryption (key : string)
| CallHandleMetricDecryption (requestId : Z) (cleartexts proof : list Byte.byte)
| CallResetTransformationReveal (sampleId : Z).

Definition execute (env : Env) (c : Call) : M unit :=
  match c with
  | CallSubmitEncryptedSample i f ct => submitEncryptedSample env i f ct
  | CallRequestTransformation sampleId => requestTransformation env sampleId
  | CallHandleDecryption r c p => handleDecryption r c p
  | CallStoreEncryptedMetric k v => storeEncryptedMetric k v
  | CallRequestMetricDecryption k => requestMetricDecryption env k
  | CallHandleMetricDecryption r c p => handleMetricDecryption r c p
  | CallResetTransformationReveal sampleId => resetTransformationReveal sampleId
  end.

Inductive outcome :=
| Success
| Reverted (r : revert_reason).

(** A transaction commits the storage its call computed, or, when the call
    reverts, leaves the storage it started from. *)
Definition transact {A} (m : M A) (st : State) : State * outcome :=
  match m st with
  | Ok (_, st') => (st', Success)
  | Revert r => (st, Reverted r)
  end.

Definition step (st : State) (tx : Env * Call) : State :=
  fst (transact (execute tx.1 tx.2) st).

Definition run (st : State) (txs : list (Env * Call)) : State :=
  fold_left step txs st.

Definition reachable (st : State) : Prop :=
  ∃ txs, st = run init txs.

(** The ids carried by the [SampleSubmitted] events of a log, oldest first. *)
Fixpoint submitted_ids (log : list Event) : list Z :=
  match log with
  | [] => []
  | SampleSubmitted k _ _ :: log' => k :: submitted_ids log'
  | _ :: log' => submitted_ids log'
  end.

(** The ids [1, 2, ..., n]. *)
Definition ids_upto (n : nat) : list Z := Z.of_nat <$> seq 1 n.

(** What every reachable state satisfies: the counter is a [uint256], the
    announced ids are [1 .. sampleCount], samples are stored exactly at
    those ids, each under its own id, and slot 0 of [transformations] reads
    as the default. *)
Record invariant (st : State) : Prop := {
  inv_count : 0 ≤ sampleCount st ≤ uint256_max;
  inv_ids : submitted_ids (events st) = ids_upto (Z.to_nat (sampleCount st));
  inv_stored : ∀ k, is_Some (encryptedSamples st !! k) ↔ 1 ≤ k ≤ sampleCount st;
  inv_id : ∀ k s, encryptedSamples st !! k = Some s → id s = k;
  inv_zero : transformation_at st 0 = zeroTransformation
}.

(** An id was issued when some submission announced it. *)
Definition issued (st : State) (k : Z) : Prop :=
  k ∈ submitted_ids (events st).

(** The transaction is a request to which the oracle answers with a token
    it has used before. *)
Definition reissues (tx : Env * Call) (token : Z) : Prop :=
  match tx.2 with
  | CallRequestTransformation _ | CallRequestMetricDecryption _ =>
      oracle_requestId tx.1 = token
  | _ => False
  end.

(** [storeEncryptedMetric(key, v)] for each [v] of [values], in order. *)
Definition accumulate (env : Env) (key : string) (values : list Z) (st : State)
    : State :=
  run st ((λ v, (env, CallStoreEncryptedMetric key v)) <$> values).

End Contract.

Definition sum_Z (l : list Z) : Z := foldr Z.add 0 l.

(** ** Observing a state up to the caller identity

    [erase_submitter] blanks the two places where the contract writes
    [msg.sender]: the [submitter] field of a stored sample and the submitter
    argument of a [SampleSubmitted] event. *)

Definition erase_sample (s : EncryptedSample) : EncryptedSample :=
  mkEncryptedSample (id s) (encryptedIntensity s) (encryptedFrequency s)
                    (encryptedContactType s) (timestamp s) 0.

Definition erase_event (e : Event) : Event :=
  match e with
  | SampleSubmitted k _ ts => SampleSubmitted k 0 ts
  | _ => e
  end.

Definition erase_submitter (st : State) : State :=
  mkState (sampleCount st) (erase_sample <$> encryptedSamples st) (transformations st)
          (requestToSampleId st) (encryptedMetric st) (metricKeys st)
          (erase_event <$> events st).

(** ** A stand-in for the external functions

    Used to run the contract on concrete inputs.  A handle is the plaintext
    it stands for (handle 0 is the uninitialised one), a proof is accepted
    when it repeats the payload, a payload decodes to the strings between
    its zero bytes or to the big-endian number it spells, and the hash of a
    key is one more than its length. *)

Definition byte_value (b : Byte.byte) : Z := Z.of_N (Byte.to_N b).

Fixpoint split_strings (cur : string) (bs : list Byte.byte) : list string :=
  match bs with
  | [] => [cur]
  | b :: bs' =>
      if byte_value b =? 0 then cur :: split_strings "" bs'
      else split_strings (cur +:+ String (Ascii.ascii_of_byte b) "") bs'
  end.

Definition big_endian (bs : list Byte.byte) : Z :=
  fold_left (λ acc b, 256 * acc + byte_value b) bs 0.

#[export] Instance plain_externals : Externals := {|
  FHE_add := Z.add;
  FHE_isInitialized := λ h, negb (h =? 0);
  FHE_checkSignatures := λ _ cleartexts proof,
    bool_decide (byte_value <$> proof = byte_value <$> cleartexts);
  abi_decode_strings := λ bs,
    match bs with [] => Some [] | _ => Some (split_strings "" bs) end;
  abi_decode_uint32 := λ bs,
    if decide (big_endian bs < 2 ^ 32) then Some (big_endian bs) else None;
  keccak256_packed := λ key, Z.of_nat (String.length key) + 1
|}.

(** Concrete transactions used below. *)
Definition alice : Env := mkEnv 1001 1700000000 5.
Definition bob : Env := mkEnv 1002 1700000060 6.
Definition sample_payload : list Byte.byte :=
  [Byte.x73; Byte.x70; Byte.x68; Byte.x65; Byte.x72; Byte.x65; Byte.x00;
   Byte.x73; Byte.x6f; Byte.x66; Byte.x74].
Definition metric_payload : list Byte.byte := [Byte.x0c].
Definition cube_payload : list Byte.byte :=
  [Byte.x63; Byte.x75; Byte.x62; Byte.x65; Byte.x00;
   Byte.x68; Byte.x61; Byte.x72; Byte.x64].

(** The scenario of the specification: a sample is submitted, its reveal is
    requested (the oracle answers with token 5), and the callback arrives. *)
Definition requested_state : State :=
  run init [(alice, CallSubmitEncryptedSample 10 20 30);
            (alice, CallRequestTransformation 1)].
Definition heat_requested_state : State :=
  run init [(alice, CallStoreEncryptedMetric "heat" 5);
            (alice, CallStoreEncryptedMetric "heat" 7);
            (bob, CallRequestMetricDecryption "heat")].
Definition revealed_state : State :=
  step requested_state (bob, CallHandleDecryption 5 sample_payload sample_payload).

(** ** The effect of a transaction, case by case

    [commits st tx st'] lists what a transaction can do to the state: leave
    it as it is (every revert), or perform the writes of the one call that
    succeeded. *)
Inductive commits `{Ext : Externals} (st : State) : Env * Call → State → Prop :=
| commits_nothing tx : commits st tx st
| commits_submit env i f c :
    sampleCount st + 1 ≤ uint256_max →
    commits st (env, CallSubmitEncryptedSample i f c)
      (log_event (SampleSubmitted (sampleCount st + 1) (msg_sender env) (block_timestamp env))
         (set_transformation (sampleCount st + 1) zeroTransformation
            (set_sample (sampleCount st + 1)
               (mkEncryptedSample (sampleCount st + 1) i f c
                  (block_timestamp env) (msg_sender env))
               (set_sampleCount (sampleCount st + 1) st))))
| commits_request env k :
    id (sample_at st k) ≠ 0 →
    revealed (transformation_at st k) = false →
    commits st (env, CallRequestTransformation k)
      (log_event (TransformationRequested k (oracle_requestId env))
         (set_request (oracle_requestId env) k st))
| commits_reveal env token cleartexts proof results :
    request_at st token ≠ 0 →
    revealed (transformation_at st (request_at st token)) = false →
    FHE_checkSignatures token cleartexts proof = true →
    abi_decode_strings cleartexts = Some results →
    commits st (env, CallHandleDecryption token cleartexts proof)
      (log_event (TransformationRevealed (request_at st token))
         (set_transformation (request_at st token)
            (mkTransformation (default "" (results !! 0%nat))
               (default "" (results !! 1%nat)) true) st))
| commits_first_store env key v :
    FHE_isInitialized (metric_at st key) = false →
    commits st (env, CallStoreEncryptedMetric key v)
      (push_metricKey key (set_metric key v st))
| commits_add_store env key v :
    FHE_isInitialized (metric_at st key) = true →
    commits st (env, CallStoreEncryptedMetric key v)
      (set_metric key (FHE_add (metric_at st key) v) st)
| commits_metric_request env key :
    FHE_isInitialized (metric_at st key) = true →
    commits st (env, CallRequestMetricDecryption key)
      (set_request (oracle_requestId env) (keccak256_packed key) st)
| commits_metric_callback env token cleartexts proof v :
    request_at st token ≠ 0 →
    FHE_checkSignatures token cleartexts proof = true →
    abi_decode_uint32 cleartexts = Some v →
    commits st (env, CallHandleMetricDecryption token cleartexts proof)
      (log_event (MetricDecrypted (request_at st token) v) st)
| commits_reset env k :
    commits st (env, CallResetTransformationReveal k)
      (set_transformation k (with_revealed false (transformation_at st k)) st).

(** ** Relations between the log and storage

    What the event log says about storage in a reachable state: a
    [SampleSubmitted] event carries the submitter and timestamp stored for
    its sample, a [TransformationRequested] event names an issued sample, and
    a revealed transformation has its [TransformationRevealed] event. *)
Record log_agreement (st : State) : Prop := {
  agree_submitted : ∀ k a ts, SampleSubmitted k a ts ∈ events st →
    submitter (sample_at st k) = a ∧ timestamp (sample_at st k) = ts;
  agree_requested : ∀ k t, TransformationRequested k t ∈ events st → issued st k;
  agree_revealed : ∀ k, revealed (transformation_at st k) = true →
    TransformationRevealed k ∈ events st
}.

(** Every stored metric has its key in [metricKeys]. *)
Definition metric_listed (st : State) : Prop :=
  ∀ key, is_Some (encryptedMetric st !! key) → key ∈ metricKeys st.

(** Every value held by the ledger is an issued sample id or the hash of a
    listed metric key. *)
Definition ledger_targets `{Ext : Externals} (st : State) : Prop :=
  ∀ token v, requestToSampleId st !! token = Some v →
    issued st v ∨ ∃ key, key ∈ metricKeys st ∧ v = keccak256_packed key.

(** No key is listed twice, every listed key has a stored metric, and every
    stored metric is an initialised handle. *)
Record metric_keys_distinct `{Ext : Externals} (st : State) : Prop := {
  distinct_keys : NoDup (metricKeys st);
  distinct_stored : ∀ key, key ∈ metricKeys st → is_Some (encryptedMetric st !! key);
  distinct_initialized :
    ∀ key v, encryptedMetric st !! key = Some v → FHE_isInitialized v = true
}.

(** The metric values stored along a trace are initialised handles. *)
Definition stores_initialized `{Ext : Externals} (txs : list (Env * Call)) : Prop :=
  ∀ env key v, (env, CallStoreEncryptedMetric key v) ∈ txs →
    FHE_isInitialized v = true.

(** The oracle issues no token twice along a trace and never [token]. *)
Definition never_issues (txs : list (Env * Call)) (token : Z) : Prop :=
  ∀ tx, tx ∈ txs → ¬ reissues tx token.

(** A second stand-in, in which every sum is a fresh non-zero handle. *)
Definition fresh_sum_externals : Externals := {|
  FHE_add := λ x y, Z.abs x + Z.abs y + 1;
  FHE_isInitialized := λ h, negb (h =? 0);
  FHE_checkSignatures := λ _ cleartexts proof,
    bool_decide (byte_value <$> proof = byte_value <$> cleartexts);
  abi_decode_strings := λ bs,
    match bs with [] => Some [] | _ => Some (split_strings "" bs) end;
  abi_decode_uint32 := λ bs,
    if decide (big_endian bs < 2 ^ 32) then Some (big_endian bs) else None;
  keccak256_packed := λ key, Z.of_nat (String.length key) + 1
|}.

Example sample_payload_decodes :
  abi_decode_strings sample_payload = Some ["sphere"; "soft"].
Proof. reflexivity. Qed.

Example metric_payload_decodes : abi_decode_uint32 metric_payload = Some 12.
Proof. reflexivity. Qed.

(** * Properties *)

(** Unfolds the monad so that a call reduces to its case analysis. *)
Ltac unfold_M :=
  unfold onlySubmitter, mbind, M_bind, emit, require, checked_add, mret, M_ret, get,
    modify, revert in *.

Section ContractFacts.
Context `{Ext : Externals}.

(** *** Closed forms of the calls *)

Lemma submitEncryptedSample_eq env i f c st :
  submitEncryptedSample env i f c st =
  if decide (sampleCount st + 1 ≤ uint256_max) then
    let n := sampleCount st + 1 in
    Ok (tt, log_event (SampleSubmitted n (msg_sender env) (block_timestamp env))
              (set_transformation n zeroTransformation
                 (set_sample n (mkEncryptedSample n i f c (block_timestamp env) (msg_sender env))
                    (set_sampleCount n st))))
  else Revert (Panic 17).
Proof.
  unfold submitEncryptedSample. unfold_M. simpl.
  destruct (decide _); reflexivity.
Qed.

Lemma requestTransformation_eq env sampleId st :
  requestTransformation env sampleId st =
  if id (sample_at st sampleId) =? 0 then Revert (Error "Invalid sample")
  else if revealed (transformation_at st sampleId) then Revert (Error "Already revealed")
  else Ok (tt, log_event (TransformationRequested sampleId (oracle_requestId env))
                 (set_request (oracle_requestId env) sampleId st)).
Proof.
  unfold requestTransformation. unfold_M. simpl.
  destruct (id _ =? 0); simpl; [reflexivity|].
  destruct (revealed _); reflexivity.
Qed.


Lemma handleDecryption_eq requestId cleartexts proof st :
  handleDecryption requestId cleartexts proof st =
  let sampleId := request_at st requestId in
  if sampleId =? 0 then Revert (Error "Unknown request")
  else if revealed (transformation_at st sampleId) then Revert (Error "Already processed")
  else if FHE_checkSignatures requestId cleartexts proof then
    match abi_decode_strings cleartexts with
    | Some results =>
        Ok (tt, log_event (TransformationRevealed sampleId)
                  (set_transformation sampleId
                     (mkTransformation (default "" (results !! 0%nat))
                        (default "" (results !! 1%nat)) true) st))
    | None => Revert DecodeFailure
    end
  else Revert InvalidSignatures.
Proof.
  unfold handleDecryption. unfold_M. simpl.
  destruct (request_at st requestId =? 0); simpl; [reflexivity|].
  destruct (revealed _); simpl; [reflexivity|].
  destruct (FHE_checkSignatures _ _ _); simpl; [|reflexivity].
  destruct (abi_decode_strings cleartexts) as [results|]; simpl; [|reflexivity].
  unfold with_revealed, with_textureDescriptor, with_shapeDescriptor. simpl.
  destruct results as [|? [|? ?]]; reflexivity.
Qed.

Lemma handleMetricDecryption_eq requestId cleartexts proof st :
  handleMetricDecryption requestId cleartexts proof st =
  let pseudoId := request_at st requestId in
  if pseudoId =? 0 then Revert (Error "Unknown request")
  else if FHE_checkSignatures requestId cleartexts proof then
    match abi_decode_uint32 cleartexts with
    | Some v => Ok (tt, log_event (MetricDecrypted pseudoId v) st)
    | None => Revert DecodeFailure
    end
  else Revert InvalidSignatures.
Proof.
  unfold handleMetricDecryption. unfold_M. simpl.
  destruct (request_at st requestId =? 0); simpl; [reflexivity|].
  destruct (FHE_checkSignatures _ _ _); simpl; [|reflexivity].
  destruct (abi_decode_uint32 cleartexts); reflexivity.
Qed.

Lemma storeEncryptedMetric_eq key value st :
  storeEncryptedMetric key value st =
  Ok (tt, if FHE_isInitialized (metric_at st key)
          then set_metric key (FHE_add (metric_at st key) value) st
          else push_metricKey key (set_metric key value st)).
Proof.
  unfold storeEncryptedMetric. unfold_M. simpl.
  destruct (FHE_isInitialized _); reflexivity.
Qed.

Lemma requestMetricDecryption_eq env key st :
  requestMetricDecryption env key st =
  if FHE_isInitialized (metric_at st key)
  then Ok (tt, set_request (oracle_requestId env) (keccak256_packed key) st)
  else Revert (Error "Metric not found").
Proof.
  unfold requestMetricDecryption. unfold_M. simpl.
  destruct (FHE_isInitialized _); reflexivity.
Qed.

Lemma resetTransformationReveal_eq sampleId st :
  resetTransformationReveal sampleId st =
  Ok (tt, set_transformation sampleId
            (with_revealed false (transformation_at st sampleId)) st).
Proof. reflexivity. Qed.

(** *** Lists of ids and runs *)

Lemma uint256_max_pos : 0 < uint256_max.
Proof. reflexivity. Qed.

Lemma submitted_ids_app log log' :
  submitted_ids (log ++ log') = submitted_ids log ++ submitted_ids log'.
Proof.
  induction log as [|e log IH]; [reflexivity|].
  destruct e; simpl; rewrite IH; reflexivity.
Qed.

Lemma ids_upto_S n : ids_upto (S n) = ids_upto n ++ [Z.of_nat (S n)].
Proof. unfold ids_upto. rewrite seq_S, fmap_app. reflexivity. Qed.

Lemma elem_of_ids_upto n k : k ∈ ids_upto n ↔ 1 ≤ k ≤ Z.of_nat n.
Proof.
  unfold ids_upto. rewrite list_elem_of_fmap. split.
  - intros (i & -> & Hi). apply elem_of_seq in Hi. lia.
  - intros Hk. exists (Z.to_nat k). split; [lia|]. apply elem_of_seq. lia.
Qed.

Lemma run_snoc st txs tx : run st (txs ++ [tx]) = step (run st txs) tx.
Proof. unfold run. rewrite fold_left_app. reflexivity. Qed.

(** *** The invariant of reachable states *)

Lemma invariant_init : invariant init.
Proof.
  split; simpl; try done.
  intros k. rewrite lookup_empty. split; [intros [? ?]; done | lia].
Qed.

Lemma invariant_submit env i f c st st' :
  invariant st →
  submitEncryptedSample env i f c st = Ok (tt, st') →
  invariant st'.
Proof.
  intros [Hc Hids Hst Hid Hz]. rewrite submitEncryptedSample_eq.
  destruct (decide _) as [Hle|]; [|done]. intros [= <-].
  split; simpl.
  - lia.
  - rewrite submitted_ids_app, Hids. simpl.
    replace (Z.to_nat (sampleCount st + 1)) with (S (Z.to_nat (sampleCount st))) by lia.
    rewrite ids_upto_S. do 2 f_equal. lia.
  - intros k. rewrite lookup_insert. case_decide as Hk.
    + subst k. split; [lia | eauto].
    + rewrite Hst. lia.
  - intros k s. rewrite lookup_insert. case_decide as Hk.
    + intros [= <-]. simpl. done.
    + apply Hid.
  - unfold transformation_at in *. simpl.
    rewrite lookup_insert_ne by lia. exact Hz.
Qed.

Lemma invariant_step st tx : invariant st → invariant (step st tx).
Proof.
  intros Hinv. destruct tx as [env c]. unfold step, transact. simpl.
  destruct (execute env c st) as [[[] st']|r] eqn:Hex; simpl; [|exact Hinv].
  destruct c; simpl in Hex.
  - eapply invariant_submit; eassumption.
  - rewrite requestTransformation_eq in Hex.
    repeat case_match; try done. injection Hex as <-.
    destruct Hinv as [? Hids ? ? ?]; split; simpl; try assumption.
    rewrite submitted_ids_app, app_nil_r. exact Hids.
  - rewrite handleDecryption_eq in Hex. simpl in Hex.
    destruct (request_at st requestId =? 0) eqn:Hz; [done|].
    repeat case_match; try done. injection Hex as <-.
    destruct Hinv as [? Hids ? ? Hz0]; split; simpl; try assumption.
    + rewrite submitted_ids_app, app_nil_r. exact Hids.
    + unfold transformation_at in *. simpl.
      rewrite lookup_insert_ne; [exact Hz0 | lia].
  - rewrite storeEncryptedMetric_eq in Hex. injection Hex as <-.
    destruct Hinv; case_match; split; assumption.
  - rewrite requestMetricDecryption_eq in Hex.
    case_match; try done. injection Hex as <-.
    destruct Hinv; split; assumption.
  - rewrite handleMetricDecryption_eq in Hex. simpl in Hex.
    repeat case_match; try done. injection Hex as <-.
    destruct Hinv as [? Hids ? ? ?]; split; simpl; try assumption.
    rewrite submitted_ids_app, app_nil_r. exact Hids.
  - rewrite resetTransformationReveal_eq in Hex. injection Hex as <-.
    destruct Hinv as [? ? ? ? Hz0]; split; simpl; try assumption.
    unfold transformation_at in *. simpl.
    rewrite lookup_insert. case_decide as Hk; [|exact Hz0].
    subst sampleId. simpl. rewrite Hz0. reflexivity.
Qed.

Lemma invariant_run st txs : invariant st → invariant (run st txs).
Proof.
  intros Hinv. induction txs as [|tx txs IH] using rev_ind; [exact Hinv|].
  rewrite run_snoc. apply invariant_step, IH.
Qed.

Lemma reachable_invariant st : reachable st → invariant st.
Proof. intros [txs ->]. apply invariant_run, invariant_init. Qed.

Lemma issued_iff st k : invariant st → issued st k ↔ 1 ≤ k ≤ sampleCount st.
Proof.
  intros [Hc Hids _ _ _]. unfold issued. rewrite Hids, elem_of_ids_upto. lia.
Qed.

Lemma sample_at_issued st k : invariant st → issued st k → id (sample_at st k) = k.
Proof.
  intros Hinv Hk. apply (issued_iff _ _ Hinv) in Hk.
  apply (inv_stored _ Hinv) in Hk as [s Hs].
  unfold sample_at. rewrite Hs. simpl. apply (inv_id _ Hinv _ _ Hs).
Qed.

Lemma sample_at_not_issued st k :
  invariant st → ¬ issued st k → sample_at st k = zeroSample.
Proof.
  intros Hinv Hk. unfold sample_at.
  destruct (encryptedSamples st !! k) as [s|] eqn:Hs; [|reflexivity].
  exfalso. apply Hk, (issued_iff _ _ Hinv), (inv_stored _ Hinv). eauto.
Qed.

Lemma not_issued_zero st : invariant st → ¬ issued st 0.
Proof. intros Hinv H0. apply (issued_iff _ _ Hinv) in H0. lia. Qed.

(** A run of submissions alone assigns one id per call, as long as the
    counter fits a [uint256]. *)
Lemma submissions_all_succeed (subs : list (Env * (Z * Z * Z))) :
  Z.of_nat (length subs) ≤ uint256_max →
  sampleCount
    (run init ((λ s, (s.1, CallSubmitEncryptedSample s.2.1.1 s.2.1.2 s.2.2)) <$> subs))
  = Z.of_nat (length subs).
Proof.
  induction subs as [|s subs IH] using rev_ind; [reflexivity|].
  rewrite length_app, fmap_app. simpl. intros Hlen.
  rewrite run_snoc. unfold step, transact. simpl.
  rewrite submitEncryptedSample_eq. rewrite IH by lia.
  destruct (decide _); simpl; lia.
Qed.

End ContractFacts.

(** ** Sample ids *)

(** C1. Along every sequence of calls from the deployed contract, the ids
    announced by [submitEncryptedSample] are 1, 2, ..., n in this order, where
    n is the final [sampleCount]: the i-th id assigned is i, so ids increase
    strictly from 1, leave no gap, and none is assigned twice.  The samples
    in storage are exactly those stored under these ids. *)
Theorem sample_ids_sequential `{Ext : Externals} (txs : list (Env * Call)) :
  let ids := submitted_ids (events (run init txs)) in
  ids = ids_upto (Z.to_nat (sampleCount (run init txs))) ∧
  (∀ (i : nat) (k : Z), ids !! i = Some k → k = Z.of_nat i + 1) ∧
  NoDup ids ∧
  (∀ k, k ∈ ids ↔ ∃ s, encryptedSamples (run init txs) !! k = Some s ∧ id s = k).
Proof.
  pose proof (invariant_run init txs invariant_init) as Hinv.
  simpl. split; [apply (inv_ids _ Hinv)|]. split; [|split].
  - rewrite (inv_ids _ Hinv). intros i k Hik. unfold ids_upto in Hik.
    rewrite list_lookup_fmap in Hik.
    destruct (seq 1 _ !! i) as [j|] eqn:Hj; [|done].
    apply lookup_seq in Hj as [-> _]. simpl in Hik. injection Hik as <-. lia.
  - rewrite (inv_ids _ Hinv). unfold ids_upto.
    apply NoDup_fmap_2; [|apply NoDup_seq].
    intros a b Hab. lia.
  - intros k. fold (issued (run init txs) k).
    rewrite (issued_iff _ _ Hinv), <- (inv_stored _ Hinv). split.
    + intros [s Hs]. exists s. split; [exact Hs | apply (inv_id _ Hinv _ _ Hs)].
    + intros (s & Hs & _). eauto.
Qed.

(** The first scenario of the specification: the sample gets id 1, the
    request records token 5 for it, the callback stores the descriptors, and
    a second callback with the same token is refused. *)
Example reveal_scenario :
  submitted_ids (events requested_state) = [1] ∧
  request_at requested_state 5 = 1 ∧
  getTransformation 1 revealed_state = Ok (("sphere", "soft", true), revealed_state) ∧
  transact (handleDecryption 5 sample_payload sample_payload) revealed_state
  = (revealed_state, Reverted (Error "Already processed")).
Proof. repeat split; reflexivity. Qed.

(** ** Callbacks that must fail *)

(** C2. A sample callback whose request id is not recorded in the ledger
    reverts with "Unknown request", and the transaction leaves the whole
    state (samples, transformations, metrics, ledger, log) as it was. *)
Theorem handleDecryption_unknown_request `{Ext : Externals}
    (st : State) (requestId : Z) (cleartexts proof : list Byte.byte) :
  requestToSampleId st !! requestId = None →
  handleDecryption requestId cleartexts proof st = Revert (Error "Unknown request") ∧
  transact (handleDecryption requestId cleartexts proof) st
  = (st, Reverted (Error "Unknown request")).
Proof.
  intros Hnone. unfold transact. rewrite handleDecryption_eq.
  unfold request_at. rewrite Hnone. simpl. split; reflexivity.
Qed.

Lemma handleDecryption_unknown_request_witness :
  requestToSampleId requested_state !! 9 = None ∧
  transact (handleDecryption 9 sample_payload sample_payload) requested_state
  = (requested_state, Reverted (Error "Unknown request")).
Proof.
  split; [reflexivity|].
  apply (handleDecryption_unknown_request requested_state 9). reflexivity.
Defined.

(** C3. A sample callback whose request id maps to a sample that is already
    revealed reverts with the contract's duplicate-reveal message, "Already
    processed"; the state is unchanged, so the stored descriptors are kept. *)
Theorem handleDecryption_already_revealed `{Ext : Externals}
    (st : State) (requestId sampleId : Z) (cleartexts proof : list Byte.byte) :
  requestToSampleId st !! requestId = Some sampleId →
  sampleId ≠ 0 →
  revealed (transformation_at st sampleId) = true →
  transact (handleDecryption requestId cleartexts proof) st
  = (st, Reverted (Error "Already processed")) ∧
  transformation_at
    (transact (handleDecryption requestId cleartexts proof) st).1 sampleId
  = transformation_at st sampleId.
Proof.
  intros Hreq Hnz Hrev.
  assert (transact (handleDecryption requestId cleartexts proof) st
          = (st, Reverted (Error "Already processed"))) as Heq.
  { unfold transact. rewrite handleDecryption_eq.
    unfold request_at. rewrite Hreq. simpl.
    destruct (sampleId =? 0) eqn:Hz; [lia|]. rewrite Hrev. reflexivity. }
  rewrite Heq. split; reflexivity.
Qed.

Lemma handleDecryption_already_revealed_witness :
  transformation_at revealed_state 1 = mkTransformation "sphere" "soft" true ∧
  transact (handleDecryption 5 metric_payload metric_payload) revealed_state
  = (revealed_state, Reverted (Error "Already processed")).
Proof.
  split; [reflexivity|].
  apply (handleDecryption_already_revealed revealed_state 5 1);
    [reflexivity | lia | reflexivity].
Defined.

(** C4. When [FHE.checkSignatures] rejects the callback, [handleDecryption]
    and [handleMetricDecryption] revert and the transaction leaves the state
    exactly as it was, whatever the payload would decode to.  The reason is
    that of the first failing check. *)
Theorem authentication_failure_fail_closed `{Ext : Externals}
    (st : State) (requestId : Z) (cleartexts proof : list Byte.byte) :
  FHE_checkSignatures requestId cleartexts proof = false →
  transact (handleDecryption requestId cleartexts proof) st
  = (st, Reverted
           (if request_at st requestId =? 0 then Error "Unknown request"
            else if revealed (transformation_at st (request_at st requestId))
                 then Error "Already processed"
                 else InvalidSignatures)) ∧
  transact (handleMetricDecryption requestId cleartexts proof) st
  = (st, Reverted
           (if request_at st requestId =? 0 then Error "Unknown request"
            else InvalidSignatures)).
Proof.
  intros Hsig. unfold transact.
  rewrite handleDecryption_eq, handleMetricDecryption_eq. simpl. rewrite Hsig.
  split.
  - destruct (request_at st requestId =? 0); [reflexivity|].
    destruct (revealed _); reflexivity.
  - destruct (request_at st requestId =? 0); reflexivity.
Qed.

Lemma authentication_failure_fail_closed_witness :
  FHE_checkSignatures 5 sample_payload [] = false ∧
  abi_decode_strings sample_payload = Some ["sphere"; "soft"] ∧
  transact (handleDecryption 5 sample_payload []) requested_state
  = (requested_state, Reverted InvalidSignatures) ∧
  transact (handleMetricDecryption 5 sample_payload []) requested_state
  = (requested_state, Reverted InvalidSignatures).
Proof.
  split; [reflexivity|]. split; [reflexivity|].
  apply (authentication_failure_fail_closed requested_state 5 sample_payload []).
  reflexivity.
Defined.

(** ** Requesting a reveal *)

(** C5. In a reachable state, [requestTransformation(sampleId)] reverts with
    "Invalid sample" when [sampleId] is 0 or was never issued, reverts with
    "Already revealed" when the sample exists and its transformation is
    revealed, and otherwise records [token ↦ sampleId] in the ledger and emits
    [TransformationRequested(sampleId, token)], changing nothing else. *)
Theorem requestTransformation_cases `{Ext : Externals}
    (env : Env) (sampleId : Z) (st : State) :
  reachable st →
  (sampleId = 0 ∨ ¬ issued st sampleId →
   requestTransformation env sampleId st = Revert (Error "Invalid sample")) ∧
  (issued st sampleId → revealed (transformation_at st sampleId) = true →
   requestTransformation env sampleId st = Revert (Error "Already revealed")) ∧
  (issued st sampleId → revealed (transformation_at st sampleId) = false →
   requestTransformation env sampleId st
   = Ok (tt, log_event (TransformationRequested sampleId (oracle_requestId env))
               (set_request (oracle_requestId env) sampleId st))).
Proof.
  intros Hinv%reachable_invariant. rewrite requestTransformation_eq.
  split; [|split].
  - intros Hno.
    assert (¬ issued st sampleId) as Hni.
    { destruct Hno as [->|Hni]; [apply not_issued_zero|]; assumption. }
    rewrite (sample_at_not_issued _ _ Hinv Hni). reflexivity.
  - intros Hiss Hrev. rewrite (sample_at_issued _ _ Hinv Hiss), Hrev.
    apply (issued_iff _ _ Hinv) in Hiss.
    destruct (sampleId =? 0) eqn:Hz; [lia | reflexivity].
  - intros Hiss Hrev. rewrite (sample_at_issued _ _ Hinv Hiss), Hrev.
    apply (issued_iff _ _ Hinv) in Hiss.
    destruct (sampleId =? 0) eqn:Hz; [lia | reflexivity].
Qed.

Lemma reachable_run `{Ext : Externals} (txs : list (Env * Call)) :
  reachable (run init txs).
Proof. exists txs. reflexivity. Qed.

Lemma requestTransformation_cases_witness :
  requestTransformation alice 0 revealed_state = Revert (Error "Invalid sample") ∧
  requestTransformation alice 2 revealed_state = Revert (Error "Invalid sample") ∧
  requestTransformation alice 1 revealed_state = Revert (Error "Already revealed") ∧
  requestTransformation bob 1 requested_state
  = Ok (tt, log_event (TransformationRequested 1 6) (set_request 6 1 requested_state)).
Proof.
  assert (reachable revealed_state) as Hrev.
  { exists [(alice, CallSubmitEncryptedSample 10 20 30);
            (alice, CallRequestTransformation 1);
            (bob, CallHandleDecryption 5 sample_payload sample_payload)].
    reflexivity. }
  assert (issued revealed_state 1) as Hiss by (vm_compute; apply list_elem_of_here).
  assert (issued requested_state 1) as Hiss' by (vm_compute; apply list_elem_of_here).
  assert (¬ issued revealed_state 2) as Hni.
  { vm_compute. intros H. apply list_elem_of_singleton in H. discriminate H. }
  split; [|split; [|split]].
  - apply (requestTransformation_cases alice 0 revealed_state Hrev). left. reflexivity.
  - apply (requestTransformation_cases alice 2 revealed_state Hrev). right. exact Hni.
  - apply (requestTransformation_cases alice 1 revealed_state Hrev);
      [exact Hiss | reflexivity].
  - apply (requestTransformation_cases bob 1 requested_state (reachable_run _));
      [exact Hiss' | reflexivity].
Defined.

(** ** The shared request ledger *)

(** The ledger holds bare integers.  Run with the stand-in externals, a
    token that [requestTransformation] recorded for sample 1 is accepted by
    [handleMetricDecryption], which reports sample id 1 as if it were a
    metric pseudo-id. *)
Lemma sample_token_accepted_as_metric :
  TransformationRequested 1 5 ∈ events requested_state ∧
  requestToSampleId requested_state !! 5 = Some 1 ∧
  transact (handleMetricDecryption 5 metric_payload metric_payload) requested_state
  = (log_event (MetricDecrypted 1 12) requested_state, Success).
Proof.
  split; [|split; reflexivity].
  vm_compute. apply list_elem_of_further, list_elem_of_here.
Qed.

(** In the other direction, a token recorded by [requestMetricDecryption] is
    accepted by [handleDecryption], which writes a revealed transformation
    at the pseudo-id although no sample was ever stored there. *)
Lemma metric_token_accepted_as_sample :
  let st := run init [(alice, CallStoreEncryptedMetric "heat" 5);
                      (bob, CallRequestMetricDecryption "heat")] in
  requestToSampleId st !! 6 = Some (keccak256_packed "heat") ∧
  ¬ issued st (keccak256_packed "heat") ∧
  transformation_at
    (step st (bob, CallHandleDecryption 6 sample_payload sample_payload))
    (keccak256_packed "heat")
  = mkTransformation "sphere" "soft" true.
Proof.
  split; [reflexivity|]. split; [|reflexivity].
  vm_compute. intros H. apply elem_of_nil in H. exact H.
Qed.

(** C6 (as the contract has it). After a successful
    [requestTransformation(sampleId)] from a reachable state, the issued
    token resolves to the single ledger value [sampleId]; the ledger does not
    record what kind of request issued it, and [handleMetricDecryption]
    accepts the token: when the signature check passes and the payload
    decodes to the [uint32] [v], it succeeds and emits
    [MetricDecrypted(sampleId, v)]. *)
Theorem ledger_value_is_untagged `{Ext : Externals}
    (env : Env) (sampleId : Z) (st st' : State)
    (cleartexts proof : list Byte.byte) (v : Z) :
  reachable st →
  requestTransformation env sampleId st = Ok (tt, st') →
  FHE_checkSignatures (oracle_requestId env) cleartexts proof = true →
  abi_decode_uint32 cleartexts = Some v →
  requestToSampleId st' !! oracle_requestId env = Some sampleId ∧
  handleMetricDecryption (oracle_requestId env) cleartexts proof st'
  = Ok (tt, log_event (MetricDecrypted sampleId v) st').
Proof.
  intros Hinv%reachable_invariant Hreq Hsig Hdec.
  rewrite requestTransformation_eq in Hreq.
  destruct (id (sample_at st sampleId) =? 0) eqn:Hid; [done|].
  destruct (revealed _); [done|]. injection Hreq as <-.
  assert (sampleId ≠ 0) as Hnz.
  { intros ->. rewrite (sample_at_not_issued _ _ Hinv (not_issued_zero _ Hinv)) in Hid.
    done. }
  assert (requestToSampleId
            (log_event (TransformationRequested sampleId (oracle_requestId env))
               (set_request (oracle_requestId env) sampleId st))
          !! oracle_requestId env = Some sampleId) as Hlk.
  { simpl. apply lookup_insert_eq. }
  split; [exact Hlk|].
  rewrite handleMetricDecryption_eq. unfold request_at. rewrite Hlk. simpl.
  destruct (sampleId =? 0) eqn:Hz; [lia|]. rewrite Hsig, Hdec. reflexivity.
Qed.

Lemma ledger_value_is_untagged_witness :
  requestToSampleId (log_event (TransformationRequested 1 5)
                       (set_request 5 1 (step init (alice, CallSubmitEncryptedSample 10 20 30))))
    !! 5 = Some 1 ∧
  handleMetricDecryption 5 metric_payload metric_payload
    (log_event (TransformationRequested 1 5)
       (set_request 5 1 (step init (alice, CallSubmitEncryptedSample 10 20 30))))
  = Ok (tt, log_event (MetricDecrypted 1 12)
              (log_event (TransformationRequested 1 5)
                 (set_request 5 1 (step init (alice, CallSubmitEncryptedSample 10 20 30))))).
Proof.
  apply (ledger_value_is_untagged alice 1
           (step init (alice, CallSubmitEncryptedSample 10 20 30)) _
           metric_payload metric_payload 12).
  - exact (reachable_run [(alice, CallSubmitEncryptedSample 10 20 30)]).
  - reflexivity.
  - reflexivity.
  - reflexivity.
Defined.

(** ** Reads *)

(** [getTransformation(0)] does not fail: on the deployed contract it
    returns the default transformation, like a read of any other id. *)
Lemma getTransformation_zero_returns :
  getTransformation 0 init = Ok (("", "", false), init) ∧
  getEncryptedSampleInfo 0 init = Ok ((0, 0, 0, false), init) ∧
  ∀ r, getTransformation 0 init ≠ Revert r.
Proof. split; [reflexivity|]. split; [reflexivity|]. intros r H. discriminate H. Qed.

(** C7 (as the contract has it). The reads never revert.  In every reachable
    state [getTransformation(0)] returns the default transformation
    [("", "", false)] and [getEncryptedSampleInfo(0)] returns the all-zero
    record, whose id field 0 is the only sign that no such sample exists. *)
Theorem reads_of_id_zero `{Ext : Externals} (st : State) :
  reachable st →
  getTransformation 0 st = Ok (("", "", false), st) ∧
  getEncryptedSampleInfo 0 st = Ok ((0, 0, 0, false), st).
Proof.
  intros Hinv%reachable_invariant.
  unfold getTransformation, getEncryptedSampleInfo. unfold_M. simpl.
  rewrite (inv_zero _ Hinv), (sample_at_not_issued _ _ Hinv (not_issued_zero _ Hinv)).
  split; reflexivity.
Qed.

Lemma reads_of_id_zero_witness :
  getTransformation 0 revealed_state = Ok (("", "", false), revealed_state) ∧
  getEncryptedSampleInfo 0 revealed_state = Ok ((0, 0, 0, false), revealed_state).
Proof.
  apply (reads_of_id_zero revealed_state).
  exists [(alice, CallSubmitEncryptedSample 10 20 30);
          (alice, CallRequestTransformation 1);
          (bob, CallHandleDecryption 5 sample_payload sample_payload)].
  reflexivity.
Defined.

(** ** Metric accumulation *)

Section MetricAccumulation.
Context `{Ext : Externals}.

(** The plaintext a handle stands for.  Homomorphic addition is taken as
    exact addition of plaintexts, and an uninitialised handle counts as
    zero, which is how [FHE.add] treats it. *)
Variable decrypt : Z → Z.
Hypothesis decrypt_add : ∀ x y, decrypt (FHE_add x y) = decrypt x + decrypt y.
Hypothesis decrypt_uninitialized :
  ∀ h, FHE_isInitialized h = false → decrypt h = 0.

Lemma storeEncryptedMetric_decrypt env key value st :
  decrypt (metric_at (step st (env, CallStoreEncryptedMetric key value)) key)
  = decrypt (metric_at st key) + decrypt value.
Proof.
  unfold step, transact. simpl. rewrite storeEncryptedMetric_eq. simpl.
  destruct (FHE_isInitialized (metric_at st key)) eqn:Hinit;
    unfold metric_at at 1; simpl; rewrite lookup_insert_eq; simpl.
  - apply decrypt_add.
  - rewrite (decrypt_uninitialized _ Hinit). lia.
Qed.

Lemma accumulate_decrypt env key values st :
  decrypt (metric_at (accumulate env key values st) key)
  = decrypt (metric_at st key) + sum_Z (decrypt <$> values).
Proof.
  revert st. induction values as [|v values IH]; intros st.
  - unfold accumulate, sum_Z. simpl. lia.
  - unfold accumulate in *. rewrite !fmap_cons.
    change (run st (?x :: ?l)) with (run (step st x) l).
    rewrite IH, storeEncryptedMetric_decrypt.
    unfold sum_Z. cbn [foldr]. lia.
Qed.

Lemma sum_Z_Permutation (l l' : list Z) : l ≡ₚ l' → sum_Z l = sum_Z l'.
Proof.
  unfold sum_Z. induction 1; simpl; lia.
Qed.

(** C8. Accumulating a collection of encrypted values under one key gives
    a running sum with the same plaintext in whatever order the values are
    stored; for a key not accumulated before that plaintext is the sum of
    the values' plaintexts, so [a, b, c] in any order decrypts to
    [a + b + c]. *)
Theorem metric_accumulation_order_independent
    (env env' : Env) (key : string) (values values' : list Z) (st : State) :
  values ≡ₚ values' →
  decrypt (metric_at (accumulate env key values st) key)
  = decrypt (metric_at (accumulate env' key values' st) key) ∧
  (FHE_isInitialized (metric_at st key) = false →
   decrypt (metric_at (accumulate env' key values' st) key)
   = sum_Z (decrypt <$> values) ∧
   ∀ a b c, values = [a; b; c] →
     decrypt (metric_at (accumulate env' key values' st) key)
     = decrypt a + decrypt b + decrypt c).
Proof.
  intros Hperm. rewrite !accumulate_decrypt.
  assert (sum_Z (decrypt <$> values') = sum_Z (decrypt <$> values)) as Hsum.
  { apply sum_Z_Permutation, fmap_Permutation. symmetry. exact Hperm. }
  rewrite Hsum. split; [reflexivity|].
  intros Hfresh. rewrite (decrypt_uninitialized _ Hfresh).
  split; [lia|]. intros a b c ->. rewrite !fmap_cons. unfold sum_Z. cbn [foldr fmap list_fmap]. lia.
Qed.

End MetricAccumulation.

Lemma metric_accumulation_order_independent_witness :
  metric_at (accumulate alice "heat" [5; 7; 30] init) "heat"
  = metric_at (accumulate bob "heat" [30; 5; 7] init) "heat" ∧
  (FHE_isInitialized (metric_at init "heat") = false →
   metric_at (accumulate bob "heat" [30; 5; 7] init) "heat" = sum_Z ((λ h, h) <$> [5; 7; 30]) ∧
   ∀ a b c, [5; 7; 30] = [a; b; c] →
     metric_at (accumulate bob "heat" [30; 5; 7] init) "heat" = a + b + c).
Proof.
  apply (metric_accumulation_order_independent (λ h, h)).
  - intros x y. reflexivity.
  - intros h Hh. simpl in Hh. apply negb_false_iff, Z.eqb_eq in Hh. exact Hh.
  - change [30; 5; 7] with ([30] ++ [5; 7]). change [5; 7; 30] with ([5; 7] ++ [30]).
    apply Permutation_app_comm.
Defined.

(** The second scenario of the specification: 5 then 7 under "heat", a
    request, and a callback whose payload decodes to 12. *)
Example heat_scenario :
  let st := run init [(alice, CallStoreEncryptedMetric "heat" 5);
                      (alice, CallStoreEncryptedMetric "heat" 7);
                      (bob, CallRequestMetricDecryption "heat")] in
  metric_at st "heat" = 12 ∧
  events (step st (bob, CallHandleMetricDecryption 6 metric_payload metric_payload))
  = [MetricDecrypted (keccak256_packed "heat") 12].
Proof. split; reflexivity. Qed.

(** ** Caller identity *)

(** C9. No call checks who the caller is.  [onlySubmitter] runs its body for
    every caller, so [requestTransformation] gives the same result and the
    same state for any two callers; the same holds of every call other than
    a submission; and a submission by two callers succeeds or fails alike
    and yields states that differ only in the recorded submitter (the
    [submitter] field of the new sample and its copy in the
    [SampleSubmitted] event). *)
Theorem caller_identity_is_not_checked `{Ext : Externals}
    (a b ts token : Z) (sampleId : Z) (c : Call) (st : State) :
  (∀ body : M unit, onlySubmitter (mkEnv a ts token) sampleId body = body) ∧
  requestTransformation (mkEnv a ts token) sampleId st
  = requestTransformation (mkEnv b ts token) sampleId st ∧
  match c with
  | CallSubmitEncryptedSample _ _ _ =>
      erase_submitter (step st (mkEnv a ts token, c))
      = erase_submitter (step st (mkEnv b ts token, c)) ∧
      (transact (execute (mkEnv a ts token) c) st).2
      = (transact (execute (mkEnv b ts token) c) st).2
  | _ => execute (mkEnv a ts token) c st = execute (mkEnv b ts token) c st
  end.
Proof.
  split; [reflexivity|]. split.
  - rewrite !requestTransformation_eq. reflexivity.
  - destruct c; simpl; try reflexivity.
    unfold step, transact. simpl. rewrite !submitEncryptedSample_eq.
    destruct (decide _); simpl; [|split; reflexivity].
    split; [|reflexivity].
    unfold erase_submitter. simpl. rewrite !fmap_insert, !fmap_app. reflexivity.
Qed.

(** The caller does reach the state through a submission: the stored
    submitter is the caller. *)
Example submitter_is_recorded :
  getSampleSubmitter 1 (step init (alice, CallSubmitEncryptedSample 10 20 30))
  = Ok (1001, step init (alice, CallSubmitEncryptedSample 10 20 30)) ∧
  getSampleSubmitter 1 (step init (bob, CallSubmitEncryptedSample 10 20 30))
  = Ok (1002, step init (bob, CallSubmitEncryptedSample 10 20 30)).
Proof. split; reflexivity. Qed.

(** ** Ledger entries are kept *)

(** A transaction leaves the ledger alone or, when it is a request, writes
    the oracle's token. *)
Lemma step_ledger `{Ext : Externals} (st : State) (tx : Env * Call) :
  requestToSampleId (step st tx) = requestToSampleId st ∨
  ∃ w, requestToSampleId (step st tx)
       = <[oracle_requestId tx.1 := w]> (requestToSampleId st) ∧
       reissues tx (oracle_requestId tx.1).
Proof.
  destruct tx as [env c]. unfold reissues, step, transact. simpl.
  destruct c; simpl.
  - rewrite submitEncryptedSample_eq. destruct (decide _); simpl; auto.
  - rewrite requestTransformation_eq.
    destruct (id _ =? 0); simpl; auto.
    destruct (revealed _); simpl; eauto.
  - rewrite handleDecryption_eq. simpl.
    destruct (request_at st requestId =? 0); simpl; auto.
    destruct (revealed _); simpl; auto.
    destruct (FHE_checkSignatures _ _ _); simpl; auto.
    destruct (abi_decode_strings _); simpl; auto.
  - rewrite storeEncryptedMetric_eq. simpl.
    destruct (FHE_isInitialized _); simpl; auto.
  - rewrite requestMetricDecryption_eq.
    destruct (FHE_isInitialized _); simpl; eauto.
  - rewrite handleMetricDecryption_eq. simpl.
    destruct (request_at st requestId =? 0); simpl; auto.
    destruct (FHE_checkSignatures _ _ _); simpl; auto.
    destruct (abi_decode_uint32 _); simpl; auto.
  - auto.
Qed.

(** A successful metric callback changes the log only, so it can be run
    again. *)
Lemma handleMetricDecryption_replay `{Ext : Externals}
    (st : State) (token v : Z) (cleartexts proof : list Byte.byte) :
  requestToSampleId st !! token = Some v →
  ∀ st', handleMetricDecryption token cleartexts proof st = Ok (tt, st') →
    ∃ value,
      st' = log_event (MetricDecrypted v value) st ∧
      requestToSampleId st' !! token = Some v ∧
      handleMetricDecryption token cleartexts proof st'
      = Ok (tt, log_event (MetricDecrypted v value) st').
Proof.
  intros Hlk st'. rewrite handleMetricDecryption_eq. unfold request_at.
  rewrite Hlk. simpl.
  destruct (v =? 0) eqn:Hv; [done|].
  destruct (FHE_checkSignatures token cleartexts proof) eqn:Hsig; [|done].
  destruct (abi_decode_uint32 cleartexts) as [value|] eqn:Hdec; [|done].
  intros [= <-]. exists value. split; [reflexivity|]. split; [exact Hlk|].
  rewrite handleMetricDecryption_eq. unfold request_at. simpl.
  rewrite Hlk. simpl. rewrite Hv, Hsig, Hdec. reflexivity.
Qed.

(** C10. No call removes a ledger entry: a recorded token stays recorded
    after any transaction, with the same value unless the transaction is a
    request that the oracle answers with that very token.  In particular a
    metric callback does not consume its token: after
    [handleMetricDecryption] succeeded, the same call succeeds again and
    emits [MetricDecrypted] again. *)
Theorem ledger_entries_persist `{Ext : Externals}
    (st : State) (tx : Env * Call) (token v : Z)
    (cleartexts proof : list Byte.byte) :
  requestToSampleId st !! token = Some v →
  is_Some (requestToSampleId (step st tx) !! token) ∧
  (¬ reissues tx token → requestToSampleId (step st tx) !! token = Some v) ∧
  (∀ st', handleMetricDecryption token cleartexts proof st = Ok (tt, st') →
     ∃ value,
       st' = log_event (MetricDecrypted v value) st ∧
       requestToSampleId st' !! token = Some v ∧
       handleMetricDecryption token cleartexts proof st'
       = Ok (tt, log_event (MetricDecrypted v value) st')).
Proof.
  intros Hlk.
  assert (∀ k w, is_Some (<[k := w]> (requestToSampleId st) !! token)) as Hins.
  { intros k w. rewrite lookup_insert. case_decide; eauto. }
  assert (∀ k w, k ≠ token → <[k := w]> (requestToSampleId st) !! token = Some v)
    as Hne.
  { intros k w Hk. rewrite lookup_insert_ne by exact Hk. exact Hlk. }
  pose proof (step_ledger st tx) as [Hsame | (w & Hset & Hreq)].
  { rewrite Hsame. split; [eauto|]. split; [intros _; exact Hlk|].
    apply handleMetricDecryption_replay, Hlk. }
  rewrite Hset. split; [apply Hins|]. split.
  - intros Hfresh. apply Hne. intros Heq. apply Hfresh.
    rewrite <- Heq. exact Hreq.
  - apply handleMetricDecryption_replay, Hlk.
Qed.

Lemma ledger_entries_persist_witness :
  requestToSampleId heat_requested_state !! 6 = Some 5 ∧
  requestToSampleId
    (step heat_requested_state
       (alice, CallHandleMetricDecryption 6 metric_payload metric_payload)) !! 6
  = Some 5 ∧
  handleMetricDecryption 6 metric_payload metric_payload
    (log_event (MetricDecrypted 5 12) heat_requested_state)
  = Ok (tt, log_event (MetricDecrypted 5 12)
              (log_event (MetricDecrypted 5 12) heat_requested_state)).
Proof.
  assert (requestToSampleId heat_requested_state !! 6 = Some 5) as Hlk by reflexivity.
  destruct (ledger_entries_persist heat_requested_state
              (alice, CallHandleMetricDecryption 6 metric_payload metric_payload)
              6 5 metric_payload metric_payload Hlk) as (_ & Hkeep & Hreplay).
  split; [exact Hlk|]. split.
  - apply Hkeep. intros H. exact H.
  - destruct (Hreplay (log_event (MetricDecrypted 5 12) heat_requested_state))
      as (value & Hst & _ & Hagain); [reflexivity|].
    assert (value = 12) as ->.
    { apply (f_equal events) in Hst. simpl in Hst.
      apply app_inv_head in Hst. injection Hst as Hv. symmetry. exact Hv. }
    exact Hagain.
Defined.

(** * Further properties of the contract *)

(** Reduces a transaction to the cases of its call. *)
Ltac step_cases :=
  unfold step, transact; simpl;
  rewrite ?submitEncryptedSample_eq, ?requestTransformation_eq, ?handleDecryption_eq,
    ?storeEncryptedMetric_eq, ?requestMetricDecryption_eq, ?handleMetricDecryption_eq;
  simpl;
  repeat match goal with
    | |- context [decide ?P] => destruct (decide P); simpl
    | |- context [if ?b then _ else _] => destruct b eqn:?; simpl
    | |- context [match ?o with Some _ => _ | None => _ end] => destruct o eqn:?; simpl
    end.

(** ** Submission *)

(** X2. A submission made while the counter is below the [uint256] maximum
    succeeds; the new sample is stored under the next id with the handles,
    the time and the caller given, its transformation is empty and not
    revealed, and the reads return them. *)
Theorem submit_then_read `{Ext : Externals}
    (env : Env) (i f c : Z) (st : State) :
  sampleCount st < uint256_max →
  ∃ st', submitEncryptedSample env i f c st = Ok (tt, st') ∧
    sampleCount st' = sampleCount st + 1 ∧
    sample_at st' (sampleCount st + 1)
    = mkEncryptedSample (sampleCount st + 1) i f c (block_timestamp env) (msg_sender env) ∧
    getEncryptedSampleInfo (sampleCount st + 1) st'
    = Ok ((sampleCount st + 1, block_timestamp env, msg_sender env, false), st') ∧
    getSampleSubmitter (sampleCount st + 1) st' = Ok (msg_sender env, st') ∧
    getTransformation (sampleCount st + 1) st' = Ok (("", "", false), st') ∧
    events st' = events st ++ [SampleSubmitted (sampleCount st + 1) (msg_sender env)
                                  (block_timestamp env)] ∧
    requestToSampleId st' = requestToSampleId st ∧
    encryptedMetric st' = encryptedMetric st.
Proof.
  intros Hlt. rewrite submitEncryptedSample_eq.
  destruct (decide _) as [_|Hno]; [|lia]. eexists. split; [reflexivity|].
  unfold getEncryptedSampleInfo, getSampleSubmitter, getTransformation. unfold_M.
  unfold sample_at, transformation_at. simpl. rewrite !lookup_insert_eq. simpl.
  repeat split; reflexivity.
Qed.

Lemma submit_then_read_witness :
  ∃ st', submitEncryptedSample bob 7 8 9 requested_state = Ok (tt, st') ∧
    sampleCount st' = 2 ∧
    sample_at st' 2 = mkEncryptedSample 2 7 8 9 1700000060 1002 ∧
    getEncryptedSampleInfo 2 st' = Ok ((2, 1700000060, 1002, false), st') ∧
    getSampleSubmitter 2 st' = Ok (1002, st') ∧
    getTransformation 2 st' = Ok (("", "", false), st') ∧
    events st' = events requested_state ++ [SampleSubmitted 2 1002 1700000060] ∧
    requestToSampleId st' = requestToSampleId requested_state ∧
    encryptedMetric st' = encryptedMetric requested_state.
Proof.
  apply (submit_then_read bob 7 8 9 requested_state). reflexivity.
Defined.

(** ** The reveal *)

Section Reveal.
Context `{Ext : Externals}.
Variables (st : State) (token sampleId : Z) (cleartexts proof : list Byte.byte)
          (results : list string).
Hypothesis recorded : requestToSampleId st !! token = Some sampleId.
Hypothesis nonzero : sampleId ≠ 0.
Hypothesis authentic : FHE_checkSignatures token cleartexts proof = true.
Hypothesis decoded : abi_decode_strings cleartexts = Some results.

(** The state a successful callback produces. *)
Lemma handleDecryption_success :
  revealed (transformation_at st sampleId) = false →
  handleDecryption token cleartexts proof st
  = Ok (tt, log_event (TransformationRevealed sampleId)
              (set_transformation sampleId
                 (mkTransformation (default "" (results !! 0%nat))
                    (default "" (results !! 1%nat)) true) st)).
Proof.
  intros Hrev. rewrite handleDecryption_eq. unfold request_at. rewrite recorded.
  simpl. destruct (sampleId =? 0) eqn:Hz; [lia|].
  rewrite Hrev, authentic, decoded. reflexivity.
Qed.

(** X3. An authenticated callback for a recorded, not yet revealed target
    succeeds: the first two decoded strings become the descriptors (the
    empty string where the list is too short, further strings are dropped),
    the flag is set, [TransformationRevealed] is emitted, and neither the
    ledger, the samples nor any other transformation changes. *)
Theorem handleDecryption_reveals :
  revealed (transformation_at st sampleId) = false →
  ∃ st', handleDecryption token cleartexts proof st = Ok (tt, st') ∧
    getTransformation sampleId st'
    = Ok ((default "" (results !! 0%nat), default "" (results !! 1%nat), true), st') ∧
    events st' = events st ++ [TransformationRevealed sampleId] ∧
    requestToSampleId st' = requestToSampleId st ∧
    encryptedSamples st' = encryptedSamples st ∧
    sampleCount st' = sampleCount st ∧
    (∀ k, k ≠ sampleId → transformation_at st' k = transformation_at st k).
Proof.
  intros Hrev. rewrite (handleDecryption_success Hrev). eexists.
  split; [reflexivity|].
  unfold getTransformation. unfold_M. unfold transformation_at. simpl.
  rewrite lookup_insert_eq. simpl. repeat split; try reflexivity.
  intros k Hk. rewrite lookup_insert_ne by (intros Heq; apply Hk; symmetry; exact Heq).
  reflexivity.
Qed.

(** X4. The first successful callback wins: once a callback for a sample has
    succeeded, a callback with any token recorded for that sample, the same
    one included, is refused and changes nothing. *)
Theorem reveal_blocks_every_token (env : Env) (token' : Z)
    (cleartexts' proof' : list Byte.byte) :
  revealed (transformation_at st sampleId) = false →
  requestToSampleId st !! token' = Some sampleId →
  let st' := step st (env, CallHandleDecryption token cleartexts proof) in
  transact (handleDecryption token' cleartexts' proof') st'
  = (st', Reverted (Error "Already processed")).
Proof.
  intros Hrev Hrec'.
  assert (step st (env, CallHandleDecryption token cleartexts proof)
          = log_event (TransformationRevealed sampleId)
              (set_transformation sampleId
                 (mkTransformation (default "" (results !! 0%nat))
                    (default "" (results !! 1%nat)) true) st)) as ->.
  { unfold step, transact. simpl. rewrite (handleDecryption_success Hrev). reflexivity. }
  simpl. unfold transact. rewrite handleDecryption_eq.
  unfold request_at, transformation_at. simpl. rewrite Hrec'. simpl.
  destruct (sampleId =? 0) eqn:Hz; [lia|].
  rewrite lookup_insert_eq. reflexivity.
Qed.

(** X5. [resetTransformationReveal] reopens a sample: it clears the flag and
    keeps the descriptors, and since the ledger entry was never consumed a
    callback with an old token then succeeds and overwrites them. *)
Theorem reset_reopens_reveal (env : Env) :
  let st1 := step st (env, CallResetTransformationReveal sampleId) in
  transformation_at st1 sampleId
  = mkTransformation (shapeDescriptor (transformation_at st sampleId))
      (textureDescriptor (transformation_at st sampleId)) false ∧
  ∃ st2, handleDecryption token cleartexts proof st1 = Ok (tt, st2) ∧
    transformation_at st2 sampleId
    = mkTransformation (default "" (results !! 0%nat)) (default "" (results !! 1%nat)) true.
Proof.
  unfold step, transact. simpl.
  assert (transformation_at
            (set_transformation sampleId
               (with_revealed false (transformation_at st sampleId)) st) sampleId
          = with_revealed false (transformation_at st sampleId)) as Hat.
  { unfold transformation_at at 1. simpl. rewrite lookup_insert_eq. reflexivity. }
  split; [exact Hat|].
  rewrite handleDecryption_eq. unfold request_at. simpl. rewrite recorded. simpl.
  destruct (sampleId =? 0) eqn:Hz; [lia|]. rewrite Hat. simpl.
  rewrite authentic, decoded. eexists. split; [reflexivity|].
  unfold transformation_at. simpl. rewrite lookup_insert_eq. reflexivity.
Qed.

End Reveal.

Lemma handleDecryption_reveals_witness :
  ∃ st', handleDecryption 5 sample_payload sample_payload requested_state = Ok (tt, st') ∧
    getTransformation 1 st' = Ok (("sphere", "soft", true), st') ∧
    events st' = events requested_state ++ [TransformationRevealed 1] ∧
    requestToSampleId st' = requestToSampleId requested_state ∧
    encryptedSamples st' = encryptedSamples requested_state ∧
    sampleCount st' = sampleCount requested_state ∧
    (∀ k, k ≠ 1 → transformation_at st' k = transformation_at requested_state k).
Proof.
  apply (handleDecryption_reveals requested_state 5 1 sample_payload sample_payload
           ["sphere"; "soft"]); try reflexivity. lia.
Defined.

Lemma reveal_blocks_every_token_witness :
  transact (handleDecryption 6 cube_payload cube_payload)
    (step (step requested_state (bob, CallRequestTransformation 1))
       (alice, CallHandleDecryption 5 sample_payload sample_payload))
  = (step (step requested_state (bob, CallRequestTransformation 1))
       (alice, CallHandleDecryption 5 sample_payload sample_payload),
     Reverted (Error "Already processed")).
Proof.
  apply (reveal_blocks_every_token
           (step requested_state (bob, CallRequestTransformation 1)) 5 1
           sample_payload sample_payload ["sphere"; "soft"]); try reflexivity. lia.
Defined.

Lemma reset_reopens_reveal_witness :
  transformation_at (step revealed_state (alice, CallResetTransformationReveal 1)) 1
  = mkTransformation "sphere" "soft" false ∧
  ∃ st2, handleDecryption 5 cube_payload cube_payload
           (step revealed_state (alice, CallResetTransformationReveal 1)) = Ok (tt, st2) ∧
    transformation_at st2 1 = mkTransformation "cube" "hard" true.
Proof.
  apply (reset_reopens_reveal revealed_state 5 1 cube_payload cube_payload
           ["cube"; "hard"]); try reflexivity. lia.
Defined.

(** ** What a transaction can change *)

Lemma step_commits `{Ext : Externals} (st : State) (tx : Env * Call) :
  commits st tx (step st tx).
Proof.
  destruct tx as [env c]. destruct c; unfold step, transact; simpl.
  - rewrite submitEncryptedSample_eq. destruct (decide _); simpl;
      [apply commits_submit; assumption | apply commits_nothing].
  - rewrite requestTransformation_eq.
    destruct (id (sample_at st sampleId) =? 0) eqn:Hid; simpl; [apply commits_nothing|].
    destruct (revealed (transformation_at st sampleId)) eqn:Hrev; simpl;
      [apply commits_nothing|].
    apply commits_request; [lia | exact Hrev].
  - rewrite handleDecryption_eq. simpl.
    destruct (request_at st requestId =? 0) eqn:Hz; simpl; [apply commits_nothing|].
    destruct (revealed _) eqn:Hrev; simpl; [apply commits_nothing|].
    destruct (FHE_checkSignatures _ _ _) eqn:Hsig; simpl; [|apply commits_nothing].
    destruct (abi_decode_strings _) eqn:Hdec; simpl; [|apply commits_nothing].
    apply commits_reveal; [lia | assumption..].
  - rewrite storeEncryptedMetric_eq. simpl.
    destruct (FHE_isInitialized (metric_at st key)) eqn:Hinit;
      [apply commits_add_store | apply commits_first_store]; exact Hinit.
  - rewrite requestMetricDecryption_eq.
    destruct (FHE_isInitialized (metric_at st key)) eqn:Hinit; simpl;
      [apply commits_metric_request; exact Hinit | apply commits_nothing].
  - rewrite handleMetricDecryption_eq. simpl.
    destruct (request_at st requestId =? 0) eqn:Hz; simpl; [apply commits_nothing|].
    destruct (FHE_checkSignatures _ _ _) eqn:Hsig; simpl; [|apply commits_nothing].
    destruct (abi_decode_uint32 _) eqn:Hdec; simpl; [|apply commits_nothing].
    apply commits_metric_callback; [lia | assumption..].
  - apply commits_reset.
Qed.

(** Case analysis on the effect of [step st tx]. *)
Ltac step_effect st tx :=
  let st' := fresh "st'" in
  let Hc := fresh "Hc" in
  generalize (step_commits st tx); generalize (step st tx);
  intros st' Hc; destruct Hc.

Lemma run_app `{Ext : Externals} (st : State) (txs txs' : list (Env * Call)) :
  run st (txs ++ txs') = run (run st txs) txs'.
Proof. unfold run. apply fold_left_app. Qed.

Lemma step_grows `{Ext : Externals} (st : State) (tx : Env * Call) :
  events st `prefix_of` events (step st tx) ∧
  metricKeys st `prefix_of` metricKeys (step st tx) ∧
  sampleCount st ≤ sampleCount (step st tx) ≤ sampleCount st + 1.
Proof.
  step_effect st tx; simpl;
    repeat split; try reflexivity; try lia; try (apply prefix_app_r; reflexivity).
Qed.

(** X8. The log and the key list are append-only and the counter never
    decreases: along any run the earlier log is a prefix of the later one,
    likewise for [metricKeys], and [sampleCount] grows by at most one per
    transaction. *)
Theorem log_is_append_only `{Ext : Externals} (st : State) (txs : list (Env * Call)) :
  events st `prefix_of` events (run st txs) ∧
  metricKeys st `prefix_of` metricKeys (run st txs) ∧
  sampleCount st ≤ sampleCount (run st txs) ≤ sampleCount st + Z.of_nat (length txs).
Proof.
  induction txs as [|tx txs IH] using rev_ind.
  - simpl. repeat split; try reflexivity; lia.
  - rewrite run_snoc, length_app. simpl.
    destruct IH as (He & Hk & Hc).
    destruct (step_grows (run st txs) tx) as (He' & Hk' & Hc').
    split; [etrans; eassumption|]. split; [etrans; eassumption|]. lia.
Qed.

Lemma issued_step `{Ext : Externals} (st : State) (tx : Env * Call) (k : Z) :
  issued st k → issued (step st tx) k.
Proof.
  unfold issued. destruct (step_grows st tx) as ([l ->] & _ & _).
  rewrite submitted_ids_app. intros Hk. apply elem_of_app. left. exact Hk.
Qed.

Lemma issued_run `{Ext : Externals} (st : State) (txs : list (Env * Call)) (k : Z) :
  issued st k → issued (run st txs) k.
Proof.
  intros Hk. induction txs as [|tx txs IH] using rev_ind; [exact Hk|].
  rewrite run_snoc. apply issued_step, IH.
Qed.

Lemma sample_at_step `{Ext : Externals} (st : State) (tx : Env * Call) (k : Z) :
  invariant st → issued st k → sample_at (step st tx) k = sample_at st k.
Proof.
  intros Hinv Hk. apply (issued_iff _ _ Hinv) in Hk.
  step_effect st tx; try reflexivity.
  unfold sample_at. simpl. rewrite lookup_insert_ne by lia. reflexivity.
Qed.

(** X7. A stored sample is immutable: whatever transactions follow, the record
    of an issued id (handles, timestamp, submitter) stays as submitted. *)
Theorem sample_is_immutable `{Ext : Externals}
    (txs txs' : list (Env * Call)) (k : Z) :
  issued (run init txs) k →
  sample_at (run init (txs ++ txs')) k = sample_at (run init txs) k.
Proof.
  intros Hk. rewrite run_app.
  pose proof (invariant_run init txs invariant_init) as Hinv.
  revert Hinv Hk. generalize (run init txs). intros st Hinv Hk.
  induction txs' as [|tx txs' IH] using rev_ind; [reflexivity|].
  rewrite run_snoc, sample_at_step; [exact IH | apply invariant_run, Hinv |].
  apply issued_run, Hk.
Qed.

Lemma sample_is_immutable_witness :
  sample_at
    (run init ([(alice, CallSubmitEncryptedSample 10 20 30)]
               ++ [(bob, CallSubmitEncryptedSample 7 8 9);
                   (bob, CallRequestTransformation 1);
                   (bob, CallHandleDecryption 6 sample_payload sample_payload);
                   (bob, CallResetTransformationReveal 1)])) 1
  = sample_at (run init [(alice, CallSubmitEncryptedSample 10 20 30)]) 1.
Proof.
  apply (sample_is_immutable [(alice, CallSubmitEncryptedSample 10 20 30)]).
  vm_compute. apply list_elem_of_here.
Defined.

(** X6. Once revealed, the transformation of an issued sample is frozen: no
    transaction changes its descriptors or its flag, except
    [resetTransformationReveal] of that sample. *)
Theorem revealed_is_frozen `{Ext : Externals}
    (st : State) (tx : Env * Call) (k : Z) :
  reachable st →
  issued st k →
  revealed (transformation_at st k) = true →
  tx.2 ≠ CallResetTransformationReveal k →
  transformation_at (step st tx) k = transformation_at st k.
Proof.
  intros Hinv%reachable_invariant Hk Hrev Hnot.
  apply (issued_iff _ _ Hinv) in Hk. revert Hnot.
  step_effect st tx; simpl; intros Hnot; try reflexivity.
  - unfold transformation_at. simpl. rewrite lookup_insert_ne by lia. reflexivity.
  - unfold transformation_at at 1. simpl.
    rewrite lookup_insert_ne; [reflexivity|]. intros Heq.
    rewrite Heq in *. congruence.
  - unfold transformation_at at 1. simpl.
    rewrite lookup_insert_ne; [reflexivity|]. intros Heq. apply Hnot.
    rewrite Heq. reflexivity.
Qed.

Lemma revealed_is_frozen_witness :
  transformation_at
    (step revealed_state (bob, CallHandleDecryption 5 cube_payload cube_payload)) 1
  = transformation_at revealed_state 1.
Proof.
  apply (revealed_is_frozen revealed_state
           (bob, CallHandleDecryption 5 cube_payload cube_payload) 1).
  - exists [(alice, CallSubmitEncryptedSample 10 20 30);
            (alice, CallRequestTransformation 1);
            (bob, CallHandleDecryption 5 sample_payload sample_payload)].
    reflexivity.
  - vm_compute. apply list_elem_of_here.
  - reflexivity.
  - discriminate.
Defined.

(** ** Tokens the oracle never issued *)

(** X9. A token that no request of the trace received from the oracle is not
    in the ledger, and both callbacks refuse it with "Unknown request",
    leaving the state as it is. *)
Theorem unissued_token_refused `{Ext : Externals}
    (txs : list (Env * Call)) (token : Z) (cleartexts proof : list Byte.byte) :
  never_issues txs token →
  requestToSampleId (run init txs) !! token = None ∧
  transact (handleDecryption token cleartexts proof) (run init txs)
  = (run init txs, Reverted (Error "Unknown request")) ∧
  transact (handleMetricDecryption token cleartexts proof) (run init txs)
  = (run init txs, Reverted (Error "Unknown request")).
Proof.
  intros Hnever.
  assert (requestToSampleId (run init txs) !! token = None) as Hnone.
  { induction txs as [|tx txs IH] using rev_ind; [reflexivity|].
    rewrite run_snoc.
    assert (never_issues txs token) as Hprev.
    { intros tx' Hin. apply Hnever, elem_of_app. left. exact Hin. }
    destruct (step_ledger (run init txs) tx) as [-> | (w & -> & Hreq)];
      [exact (IH Hprev)|].
    rewrite lookup_insert_ne; [exact (IH Hprev)|].
    intros Heq. apply (Hnever tx); [|rewrite <- Heq; exact Hreq].
    apply elem_of_app. right. apply list_elem_of_here. }
  split; [exact Hnone|]. unfold transact.
  rewrite handleDecryption_eq, handleMetricDecryption_eq. unfold request_at.
  rewrite Hnone. split; reflexivity.
Qed.

Lemma unissued_token_refused_witness :
  requestToSampleId revealed_state !! 6 = None ∧
  transact (handleDecryption 6 sample_payload sample_payload) revealed_state
  = (revealed_state, Reverted (Error "Unknown request")) ∧
  transact (handleMetricDecryption 6 metric_payload metric_payload) revealed_state
  = (revealed_state, Reverted (Error "Unknown request")).
Proof.
  split; [reflexivity|]. split.
  - apply (unissued_token_refused
             [(alice, CallSubmitEncryptedSample 10 20 30);
              (alice, CallRequestTransformation 1);
              (bob, CallHandleDecryption 5 sample_payload sample_payload)] 6).
    intros tx Hin.
    repeat (apply elem_of_cons in Hin as [-> | Hin]; [simpl; try tauto; discriminate|]).
    apply elem_of_nil in Hin. contradiction.
  - reflexivity.
Defined.

(** ** The log agrees with storage *)

Lemma submitted_event_issued (log : list Event) (k a ts : Z) :
  SampleSubmitted k a ts ∈ log → k ∈ submitted_ids log.
Proof.
  induction log as [|e log IH]; intros Hin; [apply elem_of_nil in Hin; contradiction|].
  apply elem_of_cons in Hin as [<- | Hin].
  - simpl. apply list_elem_of_here.
  - destruct e; simpl; try (apply IH, Hin). apply list_elem_of_further, IH, Hin.
Qed.

Lemma elem_of_snoc_other (log : list Event) (e e' : Event) :
  e ≠ e' → e ∈ log ++ [e'] → e ∈ log.
Proof.
  intros Hne Hin. apply elem_of_app in Hin as [Hin | Hin]; [exact Hin|].
  apply list_elem_of_singleton in Hin. contradiction.
Qed.

Lemma stored_id_issued `{Ext : Externals} (st : State) (k : Z) :
  invariant st → id (sample_at st k) ≠ 0 → issued st k.
Proof.
  intros Hinv Hid. apply (issued_iff _ _ Hinv), (inv_stored _ Hinv).
  unfold sample_at in Hid.
  destruct (encryptedSamples st !! k); [eauto | simpl in Hid; contradiction].
Qed.

Lemma log_agreement_init : log_agreement init.
Proof.
  split; simpl.
  - intros k a ts Hin. apply elem_of_nil in Hin. contradiction.
  - intros k t Hin. apply elem_of_nil in Hin. contradiction.
  - intros k Hrev. unfold transformation_at in Hrev. simpl in Hrev.
    rewrite lookup_empty in Hrev. discriminate.
Qed.

Lemma log_agreement_step `{Ext : Externals} (st : State) (tx : Env * Call) :
  invariant st → log_agreement st → log_agreement (step st tx).
Proof.
  intros Hinv [Hsub Hreq Hrev].
  pose proof (issued_step st tx) as Hiss. revert Hiss.
  step_effect st tx; intros Hiss.
  - split; assumption.
  - split; simpl.
    + intros k a ts Hin. apply elem_of_app in Hin as [Hin | Hin].
      * assert (issued st k) as Hk by (eapply submitted_event_issued; exact Hin).
        apply (issued_iff _ _ Hinv) in Hk.
        unfold sample_at. simpl. rewrite lookup_insert_ne by lia. apply Hsub, Hin.
      * apply list_elem_of_singleton in Hin. injection Hin as -> -> ->.
        unfold sample_at. simpl. rewrite lookup_insert_eq. split; reflexivity.
    + intros k t Hin. apply Hiss, (Hreq k t).
      eapply elem_of_snoc_other; [|exact Hin]. discriminate.
    + intros k. unfold transformation_at. simpl. rewrite lookup_insert.
      case_decide as Hk; [simpl; discriminate|].
      intros Hr. apply elem_of_app. left. apply Hrev, Hr.
  - split; simpl.
    + intros k' a ts Hin. apply Hsub.
      eapply elem_of_snoc_other; [|exact Hin]. discriminate.
    + intros k' t Hin. apply Hiss.
      apply elem_of_app in Hin as [Hin | Hin]; [apply (Hreq k' t), Hin|].
      apply list_elem_of_singleton in Hin. injection Hin as -> _.
      apply (stored_id_issued _ _ Hinv). assumption.
    + intros k' Hr. apply elem_of_app. left. apply Hrev, Hr.
  - split; simpl.
    + intros k' a ts Hin. apply Hsub.
      eapply elem_of_snoc_other; [|exact Hin]. discriminate.
    + intros k' t Hin. apply Hiss, (Hreq k' t).
      eapply elem_of_snoc_other; [|exact Hin]. discriminate.
    + intros k'. unfold transformation_at at 1. simpl. rewrite lookup_insert.
      case_decide as Hk.
      * subst k'. intros _. apply elem_of_app. right. apply list_elem_of_here.
      * intros Hr. apply elem_of_app. left. apply Hrev, Hr.
  - split; assumption.
  - split; assumption.
  - split; assumption.
  - split; simpl.
    + intros k' a ts Hin. apply Hsub.
      eapply elem_of_snoc_other; [|exact Hin]. discriminate.
    + intros k' t Hin. apply Hiss, (Hreq k' t).
      eapply elem_of_snoc_other; [|exact Hin]. discriminate.
    + intros k' Hr. apply elem_of_app. left. apply Hrev, Hr.
  - split; simpl; [assumption | assumption |].
    intros k'. unfold transformation_at at 1. simpl. rewrite lookup_insert.
    case_decide as Hk; [simpl; discriminate | apply Hrev].
Qed.

Lemma log_agreement_run `{Ext : Externals} (txs : list (Env * Call)) :
  log_agreement (run init txs).
Proof.
  induction txs as [|tx txs IH] using rev_ind; [apply log_agreement_init|].
  rewrite run_snoc. apply log_agreement_step; [|exact IH].
  apply invariant_run, invariant_init.
Qed.

(** X10. Every [SampleSubmitted(id, submitter, timestamp)] event in the log of a
    reachable state describes the sample stored under [id]: the stored id,
    submitter and timestamp are those of the event, however many
    transactions came after it. *)
Theorem submitted_event_matches_storage `{Ext : Externals}
    (txs : list (Env * Call)) (k a ts : Z) :
  SampleSubmitted k a ts ∈ events (run init txs) →
  getEncryptedSampleInfo k (run init txs)
  = Ok ((k, ts, a, revealed (transformation_at (run init txs) k)), run init txs) ∧
  getSampleSubmitter k (run init txs) = Ok (a, run init txs).
Proof.
  intros Hin.
  pose proof (invariant_run init txs invariant_init) as Hinv.
  destruct (agree_submitted _ (log_agreement_run txs) k a ts Hin) as [Ha Hts].
  assert (issued (run init txs) k) as Hk by (eapply submitted_event_issued; exact Hin).
  unfold getEncryptedSampleInfo, getSampleSubmitter. unfold_M. simpl.
  rewrite (sample_at_issued _ _ Hinv Hk), Ha, Hts. split; reflexivity.
Qed.

Lemma submitted_event_matches_storage_witness :
  getEncryptedSampleInfo 1 revealed_state
  = Ok ((1, 1700000000, 1001, revealed (transformation_at revealed_state 1)),
        revealed_state) ∧
  getSampleSubmitter 1 revealed_state = Ok (1001, revealed_state).
Proof.
  apply (submitted_event_matches_storage
           [(alice, CallSubmitEncryptedSample 10 20 30);
            (alice, CallRequestTransformation 1);
            (bob, CallHandleDecryption 5 sample_payload sample_payload)]
           1 1001 1700000000).
  vm_compute. apply list_elem_of_here.
Defined.

(** X11. A transformation is revealed only through a callback: whenever
    [getTransformation] reports [revealed = true] in a reachable state, the
    log holds the [TransformationRevealed] event of that id. *)
Theorem revealed_has_event `{Ext : Externals}
    (txs : list (Env * Call)) (k : Z) (shape texture : string) :
  getTransformation k (run init txs) = Ok ((shape, texture, true), run init txs) →
  TransformationRevealed k ∈ events (run init txs).
Proof.
  unfold getTransformation. unfold_M. simpl. intros [= _ _ Hrev].
  apply (agree_revealed _ (log_agreement_run txs)), Hrev.
Qed.

Lemma revealed_has_event_witness :
  TransformationRevealed 1 ∈ events revealed_state.
Proof.
  apply (revealed_has_event
           [(alice, CallSubmitEncryptedSample 10 20 30);
            (alice, CallRequestTransformation 1);
            (bob, CallHandleDecryption 5 sample_payload sample_payload)]
           1 "sphere" "soft").
  reflexivity.
Defined.

(** X12. Requests are logged for existing samples only: the sample id of every
    [TransformationRequested] event in the log of a reachable state was
    issued by a submission and its stored record carries that id. *)
Theorem requests_name_issued_samples `{Ext : Externals}
    (txs : list (Env * Call)) (k token : Z) :
  TransformationRequested k token ∈ events (run init txs) →
  issued (run init txs) k ∧ id (sample_at (run init txs) k) = k ∧ k ≠ 0.
Proof.
  intros Hin.
  pose proof (invariant_run init txs invariant_init) as Hinv.
  pose proof (agree_requested _ (log_agreement_run txs) k token Hin) as Hk.
  split; [exact Hk|]. split; [apply (sample_at_issued _ _ Hinv Hk)|].
  apply (issued_iff _ _ Hinv) in Hk. lia.
Qed.

Lemma requests_name_issued_samples_witness :
  issued requested_state 1 ∧ id (sample_at requested_state 1) = 1 ∧ 1 ≠ 0.
Proof.
  apply (requests_name_issued_samples
           [(alice, CallSubmitEncryptedSample 10 20 30);
            (alice, CallRequestTransformation 1)] 1 5).
  vm_compute. apply list_elem_of_further, list_elem_of_here.
Defined.

(** ** Metrics *)

Lemma step_store `{Ext : Externals} (env : Env) (key : string) (v : Z) (st : State) :
  step st (env, CallStoreEncryptedMetric key v)
  = if FHE_isInitialized (metric_at st key)
    then set_metric key (FHE_add (metric_at st key) v) st
    else push_metricKey key (set_metric key v st).
Proof. unfold step, transact. simpl. rewrite storeEncryptedMetric_eq. reflexivity. Qed.

Lemma store_touches_one_key `{Ext : Externals}
    (env : Env) (key : string) (v : Z) (st : State) :
  sampleCount (step st (env, CallStoreEncryptedMetric key v)) = sampleCount st ∧
  encryptedSamples (step st (env, CallStoreEncryptedMetric key v)) = encryptedSamples st ∧
  transformations (step st (env, CallStoreEncryptedMetric key v)) = transformations st ∧
  requestToSampleId (step st (env, CallStoreEncryptedMetric key v))
  = requestToSampleId st ∧
  events (step st (env, CallStoreEncryptedMetric key v)) = events st ∧
  ∀ key', key' ≠ key →
    metric_at (step st (env, CallStoreEncryptedMetric key v)) key' = metric_at st key'.
Proof.
  unfold step, transact. simpl. rewrite storeEncryptedMetric_eq. simpl.
  destruct (FHE_isInitialized (metric_at st key)); simpl;
    repeat split; try reflexivity;
    intros key' Hne; unfold metric_at; simpl;
    rewrite lookup_insert_ne by (intros Heq; apply Hne; symmetry; exact Heq);
    reflexivity.
Qed.

(** X14. [storeEncryptedMetric] touches one slot: a run of stores under one key
    leaves the counter, the samples, the transformations, the ledger, the
    log and every other key's metric as they were. *)
Theorem accumulate_touches_one_key `{Ext : Externals}
    (env : Env) (key : string) (values : list Z) (st : State) :
  let st' := accumulate env key values st in
  sampleCount st' = sampleCount st ∧
  encryptedSamples st' = encryptedSamples st ∧
  transformations st' = transformations st ∧
  requestToSampleId st' = requestToSampleId st ∧
  events st' = events st ∧
  ∀ key', key' ≠ key → metric_at st' key' = metric_at st key'.
Proof.
  simpl. revert st. induction values as [|v values IH]; intros st.
  - repeat split; reflexivity.
  - unfold accumulate in *. rewrite fmap_cons.
    change (run st (?x :: ?l)) with (run (step st x) l).
    destruct (IH (step st (env, CallStoreEncryptedMetric key v)))
      as (H1 & H2 & H3 & H4 & H5 & H6).
    destruct (store_touches_one_key env key v st) as (G1 & G2 & G3 & G4 & G5 & G6).
    rewrite H1, H2, H3, H4, H5, G1, G2, G3, G4, G5.
    repeat split; try reflexivity.
    intros key' Hne. rewrite (H6 key' Hne). apply (G6 key' Hne).
Qed.

(** X15. A stored handle that is not initialised counts as no metric at all: the
    next store under the key replaces it instead of adding to it, and lists
    the key a second time. *)
Theorem uninitialized_store_is_relisted `{Ext : Externals}
    (env : Env) (key : string) (v v' : Z) (st : State) :
  FHE_isInitialized (metric_at st key) = false →
  FHE_isInitialized v = false →
  metricKeys (accumulate env key [v; v'] st) = metricKeys st ++ [key; key] ∧
  metric_at (accumulate env key [v; v'] st) key = v'.
Proof.
  intros Hfresh Hv. unfold accumulate. rewrite !fmap_cons, fmap_nil.
  change (run st [?a; ?b]) with (step (step st a) b).
  rewrite (step_store env key v st), Hfresh.
  assert (metric_at (push_metricKey key (set_metric key v st)) key = v) as Hat.
  { unfold metric_at. simpl. rewrite lookup_insert_eq. reflexivity. }
  rewrite step_store, Hat, Hv. unfold metric_at. simpl.
  rewrite lookup_insert_eq, <- app_assoc. split; reflexivity.
Qed.

Lemma uninitialized_store_is_relisted_witness :
  metricKeys (accumulate alice "heat" [0; 7] init) = metricKeys init ++ ["heat"; "heat"] ∧
  metric_at (accumulate alice "heat" [0; 7] init) "heat" = 7.
Proof.
  apply (uninitialized_store_is_relisted alice "heat" 0 7 init); reflexivity.
Defined.

Section InitializedHandles.
Context `{Ext : Externals}.

(** The zero handle, which an untouched mapping slot holds, is not
    initialised. *)
Hypothesis zero_uninitialized : FHE_isInitialized 0 = false.

Lemma initialized_is_stored (st : State) (key : string) :
  FHE_isInitialized (metric_at st key) = true → is_Some (encryptedMetric st !! key).
Proof.
  unfold metric_at. destruct (encryptedMetric st !! key); [eauto|].
  simpl. rewrite zero_uninitialized. discriminate.
Qed.

Lemma metric_listed_step (st : State) (tx : Env * Call) :
  metric_listed st → metric_listed (step st tx).
Proof.
  intros Hl. step_effect st tx; try exact Hl.
  - intros key'. simpl. rewrite lookup_insert. case_decide as Hk.
    + subst key'. intros _. apply elem_of_app. right. apply list_elem_of_here.
    + intros Hs. apply elem_of_app. left. apply Hl, Hs.
  - intros key'. simpl. rewrite lookup_insert. case_decide as Hk.
    + subst key'. intros _. apply Hl, initialized_is_stored. assumption.
    + apply Hl.
Qed.

Lemma metric_listed_run (txs : list (Env * Call)) : metric_listed (run init txs).
Proof.
  induction txs as [|tx txs IH] using rev_ind.
  - intros key [v Hv]. simpl in Hv. rewrite lookup_empty in Hv. discriminate.
  - rewrite run_snoc. apply metric_listed_step, IH.
Qed.

(** X16. Only listed keys can be requested: in a reachable state
    [requestMetricDecryption] of a key that [listMetricKeys] does not return
    reverts with "Metric not found" and changes nothing. *)
Theorem unlisted_metric_is_refused
    (txs : list (Env * Call)) (env : Env) (key : string) :
  key ∉ metricKeys (run init txs) →
  transact (requestMetricDecryption env key) (run init txs)
  = (run init txs, Reverted (Error "Metric not found")).
Proof.
  intros Hnot. unfold transact. rewrite requestMetricDecryption_eq.
  destruct (FHE_isInitialized (metric_at (run init txs) key)) eqn:Hinit;
    [|reflexivity].
  exfalso. apply Hnot, metric_listed_run, initialized_is_stored, Hinit.
Qed.

Lemma ledger_targets_step (st : State) (tx : Env * Call) :
  invariant st → metric_listed st → ledger_targets st → ledger_targets (step st tx).
Proof.
  intros Hinv Hl Ht.
  pose proof (issued_step st tx) as Hiss.
  destruct (step_grows st tx) as (_ & [l Hkeys] & _).
  assert (∀ token v, requestToSampleId st !! token = Some v →
            issued (step st tx) v ∨
            ∃ key, key ∈ metricKeys (step st tx) ∧ v = keccak256_packed key) as Hold.
  { intros token v Hlk. destruct (Ht token v Hlk) as [Hv | (key & Hin & ->)].
    - left. apply Hiss, Hv.
    - right. exists key. split; [|reflexivity].
      rewrite Hkeys. apply elem_of_app. left. exact Hin. }
  clear Hkeys. revert Hiss Hold. unfold ledger_targets.
  step_effect st tx; intros Hiss Hold; try exact Hold.
  - intros token v. simpl. rewrite lookup_insert. case_decide as Hk; [|apply Hold].
    intros [= <-]. left. apply Hiss, (stored_id_issued _ _ Hinv). assumption.
  - intros token v. simpl. rewrite lookup_insert. case_decide as Hk; [|apply Hold].
    intros [= <-]. right. exists key. split; [|reflexivity].
    apply Hl, initialized_is_stored. assumption.
Qed.

(** X13. The ledger only ever points at things that exist: in a reachable state
    every recorded value is the id of an issued sample or the hash of a key
    that [listMetricKeys] returns. *)
Theorem ledger_points_at_existing_targets (txs : list (Env * Call)) :
  ledger_targets (run init txs).
Proof.
  induction txs as [|tx txs IH] using rev_ind.
  - intros token v Hlk. simpl in Hlk. rewrite lookup_empty in Hlk. discriminate.
  - rewrite run_snoc. apply ledger_targets_step; [| |exact IH].
    + apply invariant_run, invariant_init.
    + apply metric_listed_run.
Qed.

End InitializedHandles.

Lemma unlisted_metric_is_refused_witness :
  transact (requestMetricDecryption alice "cold") heat_requested_state
  = (heat_requested_state, Reverted (Error "Metric not found")).
Proof.
  apply (unlisted_metric_is_refused (Ext := plain_externals) eq_refl
           [(alice, CallStoreEncryptedMetric "heat" 5);
            (alice, CallStoreEncryptedMetric "heat" 7);
            (bob, CallRequestMetricDecryption "heat")] alice "cold").
  vm_compute. intros Hin.
  apply list_elem_of_singleton in Hin. discriminate Hin.
Defined.

Lemma ledger_points_at_existing_targets_witness :
  ledger_targets
    (run init [(alice, CallSubmitEncryptedSample 10 20 30);
               (alice, CallRequestTransformation 1);
               (alice, CallStoreEncryptedMetric "heat" 5);
               (bob, CallRequestMetricDecryption "heat")]).
Proof.
  apply (ledger_points_at_existing_targets (Ext := plain_externals) eq_refl).
Defined.

Section DistinctKeys.
Context `{Ext : Externals}.

(** The sum of two initialised handles is an initialised handle. *)
Hypothesis add_initialized :
  ∀ x y, FHE_isInitialized x = true → FHE_isInitialized y = true →
         FHE_isInitialized (FHE_add x y) = true.

Lemma metric_keys_distinct_step (st : State) (tx : Env * Call) :
  (∀ env key v, tx = (env, CallStoreEncryptedMetric key v) →
     FHE_isInitialized v = true) →
  metric_keys_distinct st → metric_keys_distinct (step st tx).
Proof.
  intros Hv [Hnd Hst Hin]. revert Hv.
  step_effect st tx; intros Hv; try (split; assumption).
  - assert (encryptedMetric st !! key = None) as Hnone.
    { destruct (encryptedMetric st !! key) as [w|] eqn:Hw; [|reflexivity].
      unfold metric_at in *. rewrite Hw in *. simpl in *.
      rewrite (Hin key w Hw) in *. discriminate. }
    split; simpl.
    + apply NoDup_app. split; [exact Hnd|]. split; [|apply NoDup_singleton].
      intros key' Hk' Hk''. apply list_elem_of_singleton in Hk''. subst key'.
      destruct (Hst key Hk') as [w Hw]. congruence.
    + intros key' Hk'. rewrite lookup_insert. case_decide; [eauto|].
      apply Hst. apply elem_of_app in Hk' as [Hk' | Hk']; [exact Hk'|].
      apply list_elem_of_singleton in Hk'. congruence.
    + intros key' w. rewrite lookup_insert. case_decide.
      * intros [= <-]. apply (Hv env key v eq_refl).
      * apply Hin.
  - split; simpl.
    + exact Hnd.
    + intros key' Hk'. rewrite lookup_insert. case_decide; [eauto | apply Hst, Hk'].
    + intros key' w. rewrite lookup_insert. case_decide.
      * intros [= <-]. apply add_initialized; [assumption | apply (Hv env key v eq_refl)].
      * apply Hin.
Qed.

(** X17. As long as only initialised handles are stored, [listMetricKeys] names
    no key twice, and every key it names holds an initialised running sum,
    so that [requestMetricDecryption] accepts it. *)
Theorem metric_keys_are_distinct (txs : list (Env * Call)) (env : Env) :
  stores_initialized txs →
  NoDup (metricKeys (run init txs)) ∧
  ∀ key, key ∈ metricKeys (run init txs) →
    requestMetricDecryption env key (run init txs)
    = Ok (tt, set_request (oracle_requestId env) (keccak256_packed key) (run init txs)).
Proof.
  intros Hstores.
  assert (metric_keys_distinct (run init txs)) as [Hnd Hst Hin].
  { induction txs as [|tx txs IH] using rev_ind.
    - split; simpl.
      + apply NoDup_nil_2.
      + intros key Hk. apply elem_of_nil in Hk. contradiction.
      + intros key v Hlk. rewrite lookup_empty in Hlk. discriminate.
    - rewrite run_snoc. apply metric_keys_distinct_step.
      + intros env' key v ->. apply (Hstores env' key v).
        apply elem_of_app. right. apply list_elem_of_here.
      + apply IH. intros env' key v Hk. apply (Hstores env' key v).
        apply elem_of_app. left. exact Hk. }
  split; [exact Hnd|]. intros key Hk.
  rewrite requestMetricDecryption_eq. unfold metric_at.
  destruct (Hst key Hk) as [w Hw]. rewrite Hw. simpl.
  rewrite (Hin key w Hw). reflexivity.
Qed.

End DistinctKeys.

Lemma metric_keys_are_distinct_witness :
  NoDup (metricKeys (run (Ext := fresh_sum_externals) init
           [(alice, CallStoreEncryptedMetric "heat" 5);
            (bob, CallStoreEncryptedMetric "cold" 3);
            (alice, CallStoreEncryptedMetric "heat" 7)])).
Proof.
  apply (metric_keys_are_distinct (Ext := fresh_sum_externals)).
  - intros x y _ _. simpl. apply negb_true_iff, Z.eqb_neq. lia.
  - exact alice.
  - intros env key v Hin.
    repeat (apply elem_of_cons in Hin as [Hin | Hin];
            [injection Hin as _ _ ->; reflexivity|]).
    apply elem_of_nil in Hin. contradiction.
Defined.

(** ** Runs of submissions *)

(** X1. Submissions do not fail before the counter is exhausted: a run of
    n submissions from the deployed contract, n within [uint256], leaves
    [sampleCount = n], and the i-th of them (from 1) is stored under id i
    with the handles, timestamp and caller it was made with. *)
Theorem submissions_are_stored_in_order `{Ext : Externals}
    (subs : list (Env * (Z * Z * Z))) (i : nat) (s : Env * (Z * Z * Z)) :
  Z.of_nat (length subs) ≤ uint256_max →
  subs !! i = Some s →
  let st := run init ((λ s, (s.1, CallSubmitEncryptedSample s.2.1.1 s.2.1.2 s.2.2))
                        <$> subs) in
  sampleCount st = Z.of_nat (length subs) ∧
  sample_at st (Z.of_nat i + 1)
  = mkEncryptedSample (Z.of_nat i + 1) s.2.1.1 s.2.1.2 s.2.2
      (block_timestamp s.1) (msg_sender s.1).
Proof.
  simpl. revert i s. induction subs as [|x subs IH] using rev_ind; intros i s Hlen Hi.
  - rewrite lookup_nil in Hi. discriminate.
  - split; [apply submissions_all_succeed, Hlen|].
    rewrite length_app in Hlen. simpl in Hlen.
    rewrite fmap_app. simpl. rewrite run_snoc.
    pose proof (invariant_run init
                  ((λ s, (s.1, CallSubmitEncryptedSample s.2.1.1 s.2.1.2 s.2.2)) <$> subs)
                  invariant_init) as Hinv.
    pose proof (submissions_all_succeed subs ltac:(lia)) as Hcount.
    destruct (decide (i < length subs)%nat) as [Hlt | Hge].
    + rewrite lookup_app_l in Hi by exact Hlt.
      destruct (IH i s ltac:(lia) Hi) as [_ Hat].
      rewrite sample_at_step; [exact Hat | exact Hinv |].
      apply (issued_iff _ _ Hinv). lia.
    + assert (i = length subs) as ->.
      { apply lookup_lt_Some in Hi. rewrite length_app in Hi. simpl in Hi. lia. }
      rewrite lookup_app_r, Nat.sub_diag in Hi by lia. injection Hi as ->.
      unfold step, transact. simpl. rewrite submitEncryptedSample_eq, Hcount.
      destruct (decide _) as [_|Hno]; [|lia]. simpl.
      unfold sample_at. simpl. rewrite lookup_insert_eq. reflexivity.
Qed.

Lemma submissions_are_stored_in_order_witness :
  sampleCount
    (run init [(alice, CallSubmitEncryptedSample 10 20 30);
               (bob, CallSubmitEncryptedSample 7 8 9)]) = 2 ∧
  sample_at
    (run init [(alice, CallSubmitEncryptedSample 10 20 30);
               (bob, CallSubmitEncryptedSample 7 8 9)]) 2
  = mkEncryptedSample 2 7 8 9 1700000060 1002.
Proof.
  apply (submissions_are_stored_in_order
           [(alice, (10, 20, 30)); (bob, (7, 8, 9))] 1 (bob, (7, 8, 9))).
  - vm_compute. discriminate.
  - reflexivity.
Defined.
